(** * Order service: request handlers, entity/wire conversion, error mapping

    A shallow embedding of the request-handling core of the order service
    (package [orders] with its collaborators [entity], [store], and the
    parts of the Go standard library, [connect] and [uuid] the handlers
    call), followed by the properties of the handlers.

    Conventions of the embedding:
    - a Go pointer [*T] is an [option T], [None] being [nil];
    - a Go [error] value is an [option error], [None] being [nil];
    - a dereference of [nil] is a run-time panic, the [Panic] outcome;
    - a callee given a pointer it may write through receives the pointee
      and returns it as the call left it;
    - package-level error variables are told apart by identity, never by
      their text;
    - [float64] is the IEEE-754 specification type of the standard
      library, with its comparison [SFleb] for Go's [<=];
    - the record store, the identifier generator and the clock are the
      handlers' environment: the [World] a handler runs in. *)

From Stdlib Require Import ZArith List String Ascii Bool.
From Stdlib Require Import Floats.SpecFloat.
From Stdlib Require Import Numbers.DecimalString.
Import ListNotations.

Local Open Scope string_scope.
Local Open Scope Z_scope.
Local Open Scope list_scope.

(** ** Go basics *)

Definition float64 := spec_float.

(** The constant [0] of a float64 comparison. *)
Definition float64_zero : float64 := S754_zero false.

(** The outcome of running Go code: a value, or a run-time panic. *)
Inductive result (A : Type) : Type :=
| Value (a : A)
| Panic.
Arguments Value {A} a.
Arguments Panic {A}.

(** What a handler returns, Go's pair [(resp, err)] of which exactly one
    component is non-nil in this code. *)
Inductive reply (E A : Type) : Type :=
| Resp (a : A)
| Fail (e : E).
Arguments Resp {E A} a.
Arguments Fail {E A} e.

(** ** Package errors, and the sentinel of package store *)

Module errors.

(** The package-level error variables this code compares against,
    [store.ErrOrderNotFound] and [sql.ErrNoRows]. Each is one value, which
    [==] tells from every other error value, whatever its text. *)
Inductive sentinel : Type :=
| ErrOrderNotFound
| ErrNoRows.

Definition sentinel_eqb (s1 s2 : sentinel) : bool :=
  match s1, s2 with
  | ErrOrderNotFound, ErrOrderNotFound => true
  | ErrNoRows, ErrNoRows => true
  | _, _ => false
  end.

(** Error values: a package-level variable; an error made at run time by
    [errors.New] or by a library, which is none of the package-level
    variables even when it carries the text of one; and an error that
    wraps another one (as [fmt.Errorf] with [%w] builds). *)
Inductive error : Type :=
| Var (s : sentinel)
| New (msg : string)
| Wrap (msg : string) (inner : error).

Coercion Var : sentinel >-> error.

(** [errors.Is(err, target)] for a non-nil [err] and a package-level
    variable [target], as in every call of this code: [err] is [target]
    itself, or the chain of errors it wraps contains [target]. *)
Fixpoint Is (err : error) (target : sentinel) : bool :=
  match err with
  | Var s => sentinel_eqb s target
  | New _ => false
  | Wrap _ inner => Is inner target
  end.

End errors.
Export errors(error).
Export (coercions) errors.

(** ** Package connect: status codes and errors *)

Module connect.

Inductive Code : Type :=
| CodeInvalidArgument
| CodeNotFound
| CodePermissionDenied
| CodeInternal.

(** [connect.NewError(c, underlying)]: a status code and the wrapped
    error, [None] when [nil] is passed. *)
Record Error : Type := NewError {
  code : Code;
  underlying : option error
}.

End connect.

(** ** Package time: instants and their RFC 3339 rendering *)

Module time.

(** A [time.Time]: seconds since the Unix epoch, nanoseconds within the
    second, and the offset in seconds east of UTC of the attached
    location at this instant ([0] for [time.UTC]). *)
Record Time : Type := mkTime {
  unix : Z;
  nsec : Z;
  offset : Z
}.

(** [t.UTC()]: the same instant, with the location set to UTC. *)
Definition UTC (t : Time) : Time :=
  {| unix := unix t; nsec := nsec t; offset := 0 |}.

(** [t.Truncate(time.Second)]: the sub-second part dropped. *)
Definition TruncateSecond (t : Time) : Time :=
  {| unix := unix t; nsec := 0; offset := offset t |}.

(** The day count since the epoch of a civil date of the proleptic
    Gregorian calendar. *)
Definition days_from_civil (y m d : Z) : Z :=
  let y' := if m <=? 2 then y - 1 else y in
  let era := y' / 400 in
  let yoe := y' - era * 400 in
  let mp := if m <=? 2 then m + 9 else m - 3 in
  let doy := (153 * mp + 2) / 5 + d - 1 in
  let doe := yoe * 365 + yoe / 4 - yoe / 100 + doy in
  era * 146097 + doe - 719468.

(** [time.Date(y, m, d, hh, mm, ss, ns, loc)] on a normalised civil date
    and clock, for a location at the fixed offset [off]. *)
Definition Date (y m d hh mm ss ns off : Z) : Time :=
  {| unix := days_from_civil y m d * 86400 + hh * 3600 + mm * 60 + ss - off;
     nsec := ns;
     offset := off |}.

(** The civil date (year, month, day) of a day count since the epoch in
    the proleptic Gregorian calendar, as [absDate] yields it. *)
Definition civil_from_days (days : Z) : Z * Z * Z :=
  let z := days + 719468 in
  let era := z / 146097 in
  let doe := z - era * 146097 in
  let yoe := (doe - doe / 1460 + doe / 36524 - doe / 146096) / 365 in
  let doy := doe - (365 * yoe + yoe / 4 - yoe / 100) in
  let mp := (5 * doy + 2) / 153 in
  let d := doy - (153 * mp + 2) / 5 + 1 in
  let m := if mp <? 10 then mp + 3 else mp - 9 in
  let y := yoe + era * 400 in
  (if m <=? 2 then y + 1 else y, m, d).

Definition isDigit (c : ascii) : bool :=
  ((48 <=? nat_of_ascii c) && (nat_of_ascii c <=? 57))%nat.

(** The characters an RFC 3339 rendering is made of: decimal digits and
    the punctuation of the layout. A fraction of a second would need the
    decimal point, which is not among them. *)
Definition layoutChar (c : ascii) : bool :=
  isDigit c || existsb (Ascii.eqb c) (list_ascii_of_string "-T:Z+").

Definition digits (u : Z) : list ascii :=
  list_ascii_of_string (NilZero.string_of_uint (N.to_uint (Z.to_N u))).

(** [appendInt(b, x, width)]: the decimal digits of [x], zero-padded to
    [width], after a minus sign when [x] is negative. *)
Definition appendInt (x : Z) (width : nat) : list ascii :=
  let ds := digits (Z.abs x) in
  let padded := repeat "0"%char (width - List.length ds)%nat ++ ds in
  if x <? 0 then "-"%char :: padded else padded.

(** The zone suffix of the layout element [Z07:00]. *)
Definition appendZone (off : Z) : list ascii :=
  if off =? 0 then ["Z"%char]
  else
    let zone := Z.quot off 60 in
    let sign := if zone <? 0 then "-"%char else "+"%char in
    let zone := Z.abs zone in
    sign :: appendInt (Z.quot zone 60) 2 ++ ":"%char :: appendInt (Z.rem zone 60) 2.

(** The layout elements [2006-01-02T15:04:05]: the civil date and the
    clock of the instant in the attached location. *)
Definition appendDateTime (t : Time) : list ascii :=
  let abs := unix t + offset t in
  let '(year, month, day) := civil_from_days (abs / 86400) in
  let secs := abs mod 86400 in
  appendInt year 4 ++ "-"%char :: appendInt month 2 ++ "-"%char :: appendInt day 2
    ++ "T"%char :: appendInt (secs / 3600) 2
    ++ ":"%char :: appendInt ((secs mod 3600) / 60) 2
    ++ ":"%char :: appendInt (secs mod 60) 2.

(** [t.Format(time.RFC3339)], layout [2006-01-02T15:04:05Z07:00]: date
    and clock, then the zone. The layout has no fractional-second
    element, so [nsec] is not rendered. *)
Definition FormatRFC3339_chars (t : Time) : list ascii :=
  appendDateTime t ++ appendZone (offset t).

Definition FormatRFC3339 (t : Time) : string :=
  string_of_list_ascii (FormatRFC3339_chars t).

End time.

(** ** Package uuid: identifiers and their textual form *)

Module uuid.

(** A [uuid.UUID], an array of 16 bytes. *)
Definition UUID := list Byte.byte.

Definition hexdigit (n : N) : ascii :=
  nth (N.to_nat n) (list_ascii_of_string "0123456789abcdef") "0"%char.

(** The value of a hexadecimal digit, [0] for any other character. *)
Definition hexval (c : ascii) : N :=
  match find (fun n => Ascii.eqb (hexdigit n) c)
             (map N.of_nat (seq 0 16)) with
  | Some n => n
  | None => 0%N
  end.

(** [hex.Encode]: two lower-case hexadecimal digits per byte. *)
Definition hexbyte (b : Byte.byte) : list ascii :=
  let n := Byte.to_N b in
  [hexdigit (N.div n 16); hexdigit (N.modulo n 16)].

Fixpoint hex (bs : list Byte.byte) : list ascii :=
  match bs with
  | [] => []
  | b :: bs' => hexbyte b ++ hex bs'
  end.

(** [encodeHex]: the groups [u[0:4]], [u[4:6]], [u[6:8]], [u[8:10]] and
    [u[10:]] in hexadecimal, separated by dashes. *)
Definition encodeHex (u : UUID) : list ascii :=
  hex (firstn 4 u)
    ++ "-"%char :: hex (firstn 2 (skipn 4 u))
    ++ "-"%char :: hex (firstn 2 (skipn 6 u))
    ++ "-"%char :: hex (firstn 2 (skipn 8 u))
    ++ "-"%char :: hex (skipn 10 u).

(** [u.String()]. *)
Definition String (u : UUID) : string :=
  string_of_list_ascii (encodeHex u).

End uuid.

(** ** Package entity *)

Module entity.

(** [OrderStatus] is a string type. *)
Definition OrderStatus := string.

Definition OrderStatusNew : OrderStatus := "NEW".
Definition OrderStatusInProgress : OrderStatus := "IN_PROGRESS".
Definition OrderStatusFinished : OrderStatus := "FINISHED".

Record Order : Type := mkOrder {
  ID : string;
  UserID : string;
  Item : string;
  Amount : float64;
  Status : OrderStatus;
  CreatedAt : time.Time
}.

End entity.

(** ** Package orderv1: the wire messages *)

Module orderv1.

Record Order : Type := mkOrder {
  Id : string;
  UserId : string;
  Item : string;
  Amount : float64;
  Status : string;
  CreatedAt : string
}.

Module CreateOrderRequest.
Record t : Type := mk { UserId : string; Item : string; Amount : float64 }.
End CreateOrderRequest.

Module GetOrderRequest.
Record t : Type := mk { Id : string }.
End GetOrderRequest.

Module ListOrdersRequest.
Record t : Type := mk { }.
End ListOrdersRequest.

Module CheckOrderOwnerRequest.
Record t : Type := mk { OrderId : string; UserId : string }.
End CheckOrderOwnerRequest.

Module CreateOrderResponse.
Record t : Type := mk { Order : Order }.
End CreateOrderResponse.

Module GetOrderResponse.
Record t : Type := mk { Order : Order }.
End GetOrderResponse.

Module ListOrdersResponse.
Record t : Type := mk { Orders : list Order }.
End ListOrdersResponse.

Module CheckOrderOwnerResponse.
Record t : Type := mk { }.
End CheckOrderOwnerResponse.

End orderv1.

(** ** Package store: the record store interface and its test double *)

Module store.

Definition ErrOrderNotFound : errors.sentinel := errors.ErrOrderNotFound.

(** The [OrderStore] interface over a store whose state is [St]. Each
    operation may change the state and returns what the Go method
    returns. [Create] receives a pointer to the order the handler built
    and may write through it: it returns, with its error, the order as
    the call left it. *)
Record OrderStore (St : Type) : Type := mkOrderStore {
  Create : entity.Order -> St -> (entity.Order * option error) * St;
  Get : string -> St -> (option entity.Order * option error) * St;
  List : St -> (list (option entity.Order) * option error) * St;
  Close : St -> option error * St
}.
Arguments Create {St} _ _ _.
Arguments Get {St} _ _ _.
Arguments List {St} _ _.
Arguments Close {St} _ _.

(** [MockOrderStore]: every operation forwards to its function field
    when that is non-nil and returns zero values otherwise. *)
Record MockOrderStore : Type := mkMock {
  CreateFunc : option (entity.Order -> entity.Order * option error);
  GetFunc : option (string -> option entity.Order * option error);
  ListFunc : option (list (option entity.Order) * option error);
  CloseFunc : option (option error)
}.

Definition Mock (m : MockOrderStore) : OrderStore unit :=
  {| Create := fun order st =>
       match CreateFunc m with
       | Some f => (f order, st)
       | None => ((order, None), st)
       end;
     Get := fun id st =>
       match GetFunc m with
       | Some f => (f id, st)
       | None => ((None, None), st)
     end;
     List := fun st =>
       match ListFunc m with
       | Some r => (r, st)
       | None => (([], None), st)
       end;
     Close := fun st =>
       match CloseFunc m with
       | Some r => (r, st)
       | None => (None, st)
       end |}.

(** The mock with no function set. *)
Definition emptyMock : MockOrderStore :=
  {| CreateFunc := None; GetFunc := None; ListFunc := None; CloseFunc := None |}.

End store.

(** ** Package orders: the handlers *)

Module orders.

Import connect.

(** *** entityToProto *)

(** The conversion on a non-nil entity. *)
Definition toProto (e : entity.Order) : orderv1.Order :=
  {| orderv1.Id := entity.ID e;
     orderv1.UserId := entity.UserID e;
     orderv1.Item := entity.Item e;
     orderv1.Amount := entity.Amount e;
     orderv1.Status := entity.Status e;
     orderv1.CreatedAt := time.FormatRFC3339 (entity.CreatedAt e) |}.

(** [entityToProto(e)] on a pointer: reading a field of [nil] panics. *)
Definition entityToProto (e : option entity.Order) : result orderv1.Order :=
  match e with
  | Some o => Value (toProto o)
  | None => Panic
  end.

(** *** The world a handler runs in *)

(** A call a handler made on the store. *)
Inductive StoreCall : Type :=
| CallCreate (order : entity.Order)
| CallGet (id : string)
| CallList.

Section Handlers.

Context {St : Type}.
Variable st : store.OrderStore St.

(** The store's state, the calls made on the store so far (oldest
    first), and the sources [uuid.New] and [time.Now] draw from, each
    with the number of values already drawn. *)
Record World : Type := mkWorld {
  db : St;
  calls : list StoreCall;
  entropy : nat -> uuid.UUID;
  drawn : nat;
  clock : nat -> time.Time;
  ticks : nat
}.

Definition Go (A : Type) : Type := World -> result A * World.

Definition ret {A} (a : A) : Go A := fun w => (Value a, w).

Definition bind {A B} (m : Go A) (k : A -> Go B) : Go B :=
  fun w =>
    match m w with
    | (Value a, w') => k a w'
    | (Panic, w') => (Panic, w')
    end.

Definition lift {A} (r : result A) : Go A := fun w => (r, w).

Notation "x <- m ;; k" := (bind m (fun x => k))
  (at level 61, m at next level, right associativity).

Definition uuid_New : Go uuid.UUID :=
  fun w => (Value (entropy w (drawn w)),
            {| db := db w; calls := calls w; entropy := entropy w;
               drawn := S (drawn w); clock := clock w; ticks := ticks w |}).

Definition time_Now : Go time.Time :=
  fun w => (Value (clock w (ticks w)),
            {| db := db w; calls := calls w; entropy := entropy w;
               drawn := drawn w; clock := clock w; ticks := S (ticks w) |}).

Definition logged (w : World) (c : StoreCall) (s : St) : World :=
  {| db := s; calls := calls w ++ [c]; entropy := entropy w;
     drawn := drawn w; clock := clock w; ticks := ticks w |}.

Definition store_Create (order : entity.Order)
  : Go (entity.Order * option error) :=
  fun w => let (r, s) := store.Create st order (db w) in
           (Value r, logged w (CallCreate order) s).

Definition store_Get (id : string) : Go (option entity.Order * option error) :=
  fun w => let (r, s) := store.Get st id (db w) in
           (Value r, logged w (CallGet id) s).

Definition store_List : Go (list (option entity.Order) * option error) :=
  fun w => let (r, s) := store.List st (db w) in
           (Value r, logged w CallList s).

(** *** createOrderHandler *)

Definition createOrderHandler_validate (req : orderv1.CreateOrderRequest.t) : option Error :=
  if String.eqb (orderv1.CreateOrderRequest.UserId req) "" then
    Some (NewError CodeInvalidArgument None)
  else if String.eqb (orderv1.CreateOrderRequest.Item req) "" then
    Some (NewError CodeInvalidArgument None)
  else if SFleb (orderv1.CreateOrderRequest.Amount req) float64_zero then
    Some (NewError CodeInvalidArgument None)
  else None.

(** The order literal of [Handle], given what [uuid.New()] and
    [time.Now()] returned. *)
Definition newOrder (req : orderv1.CreateOrderRequest.t)
  (u : uuid.UUID) (now : time.Time) : entity.Order :=
  {| entity.ID := uuid.String u;
     entity.UserID := orderv1.CreateOrderRequest.UserId req;
     entity.Item := orderv1.CreateOrderRequest.Item req;
     entity.Amount := orderv1.CreateOrderRequest.Amount req;
     entity.Status := entity.OrderStatusNew;
     entity.CreatedAt := time.UTC now |}.

Definition createOrderHandler_Handle (req : orderv1.CreateOrderRequest.t)
  : Go (reply Error orderv1.CreateOrderResponse.t) :=
  match createOrderHandler_validate req with
  | Some err => ret (Fail err)
  | None =>
      u <- uuid_New ;;
      now <- time_Now ;;
      r <- store_Create (newOrder req u now) ;;
      let (order, err) := r in
      match err with
      | Some e => ret (Fail (NewError CodeInternal (Some e)))
      | None =>
          p <- lift (entityToProto (Some order)) ;;
          ret (Resp {| orderv1.CreateOrderResponse.Order := p |})
      end
  end.

(** *** getOrderHandler *)

Definition getOrderHandler_validate (req : orderv1.GetOrderRequest.t) : option Error :=
  if String.eqb (orderv1.GetOrderRequest.Id req) "" then
    Some (NewError CodeInvalidArgument None)
  else None.

Definition getOrderHandler_Handle (req : orderv1.GetOrderRequest.t)
  : Go (reply Error orderv1.GetOrderResponse.t) :=
  match getOrderHandler_validate req with
  | Some err => ret (Fail err)
  | None =>
      r <- store_Get (orderv1.GetOrderRequest.Id req) ;;
      let (order, err) := r in
      match err with
      | Some e =>
          if errors.Is e store.ErrOrderNotFound then
            ret (Fail (NewError CodeNotFound (Some e)))
          else ret (Fail (NewError CodeInternal (Some e)))
      | None =>
          p <- lift (entityToProto order) ;;
          ret (Resp {| orderv1.GetOrderResponse.Order := p |})
      end
  end.

(** *** listOrdersHandler *)

Definition listOrdersHandler_validate (_ : orderv1.ListOrdersRequest.t) : option Error :=
  None.

(** The conversion loop, element by element in slice order. *)
Fixpoint convertAll (orders : list (option entity.Order))
  : result (list orderv1.Order) :=
  match orders with
  | [] => Value []
  | o :: rest =>
      match entityToProto o with
      | Panic => Panic
      | Value p =>
          match convertAll rest with
          | Panic => Panic
          | Value ps => Value (p :: ps)
          end
      end
  end.

Definition listOrdersHandler_Handle (req : orderv1.ListOrdersRequest.t)
  : Go (reply Error orderv1.ListOrdersResponse.t) :=
  match listOrdersHandler_validate req with
  | Some err => ret (Fail err)
  | None =>
      r <- store_List ;;
      let (orders, err) := r in
      match err with
      | Some e => ret (Fail (NewError CodeInternal (Some e)))
      | None =>
          ps <- lift (convertAll orders) ;;
          ret (Resp {| orderv1.ListOrdersResponse.Orders := ps |})
      end
  end.

(** *** checkOrderOwnerHandler *)

Definition checkOrderOwnerHandler_validate (req : orderv1.CheckOrderOwnerRequest.t)
  : option Error :=
  if String.eqb (orderv1.CheckOrderOwnerRequest.OrderId req) "" then
    Some (NewError CodeInvalidArgument None)
  else if String.eqb (orderv1.CheckOrderOwnerRequest.UserId req) "" then
    Some (NewError CodeInvalidArgument None)
  else None.

(** [order.UserID] through a pointer. *)
Definition deref_UserID (order : option entity.Order) : result string :=
  match order with
  | Some o => Value (entity.UserID o)
  | None => Panic
  end.

Definition checkOrderOwnerHandler_Handle (req : orderv1.CheckOrderOwnerRequest.t)
  : Go (reply Error orderv1.CheckOrderOwnerResponse.t) :=
  match checkOrderOwnerHandler_validate req with
  | Some err => ret (Fail err)
  | None =>
      r <- store_Get (orderv1.CheckOrderOwnerRequest.OrderId req) ;;
      let (order, err) := r in
      match err with
      | Some e =>
          if errors.Is e store.ErrOrderNotFound then
            ret (Fail (NewError CodeNotFound (Some e)))
          else ret (Fail (NewError CodeInternal (Some e)))
      | None =>
          owner <- lift (deref_UserID order) ;;
          if negb (String.eqb owner (orderv1.CheckOrderOwnerRequest.UserId req)) then
            ret (Fail (NewError CodePermissionDenied
                         (Some (errors.New "order does not belong to user"))))
          else ret (Resp orderv1.CheckOrderOwnerResponse.mk)
      end
  end.

(** *** Server: one forwarding method per operation *)

Definition CreateOrder := createOrderHandler_Handle.
Definition GetOrder := getOrderHandler_Handle.
Definition ListOrders := listOrdersHandler_Handle.
Definition CheckOrderOwner := checkOrderOwnerHandler_Handle.

End Handlers.

Arguments World St : clear implicits.

(** A request to any of the four operations, and its handler's
    validation. *)
Inductive Request : Type :=
| ReqCreateOrder (req : orderv1.CreateOrderRequest.t)
| ReqGetOrder (req : orderv1.GetOrderRequest.t)
| ReqListOrders (req : orderv1.ListOrdersRequest.t)
| ReqCheckOrderOwner (req : orderv1.CheckOrderOwnerRequest.t).

Definition validate (r : Request) : option Error :=
  match r with
  | ReqCreateOrder req => createOrderHandler_validate req
  | ReqGetOrder req => getOrderHandler_validate req
  | ReqListOrders req => listOrdersHandler_validate req
  | ReqCheckOrderOwner req => checkOrderOwnerHandler_validate req
  end.

(** "Checked in order, first failure wins": the error of the first check
    of a list that fails, if any. *)
Fixpoint firstFailure (checks : list (bool * Error)) : option Error :=
  match checks with
  | [] => None
  | (failed, e) :: rest => if failed then Some e else firstFailure rest
  end.

(** The store calls a run added to the log. *)
Definition newCalls {St A} (w : World St) (r : result A * World St)
  : list StoreCall :=
  skipn (List.length (calls w)) (calls (snd r)).

End orders.

(** ** Sample inputs *)

Module samples.

Import orders.

Definition byte_of_nat (n : nat) : Byte.byte :=
  match Byte.of_N (N.of_nat n mod 256) with
  | Some b => b
  | None => Byte.x00
  end.

Definition uuids (n : nat) : uuid.UUID :=
  repeat Byte.xa7 15 ++ [byte_of_nat n].

(** 2024-01-15 10:30:00 UTC, read on a clock set three hours east of
    UTC, advancing one second per reading, with a sub-second part. *)
Definition wallclock (n : nat) : time.Time :=
  {| time.unix := 1705314600 + Z.of_nat n;
     time.nsec := 123456789;
     time.offset := 10800 |}.

Definition world : World unit :=
  {| db := tt; calls := []; entropy := uuids; drawn := 0%nat;
     clock := wallclock; ticks := 0%nat |}.

Definition amount_99_99 : float64 :=
  S754_finite false 7036170730324623 (-46).

Definition order1 : entity.Order :=
  {| entity.ID := "order-123";
     entity.UserID := "user-456";
     entity.Item := "Test Item";
     entity.Amount := amount_99_99;
     entity.Status := entity.OrderStatusNew;
     entity.CreatedAt := time.Date 2024 1 15 10 30 0 0 0 |}.

(** The same instant as [order1]'s, three hours east of UTC. *)
Definition order_east : entity.Order :=
  {| entity.ID := "order-123";
     entity.UserID := "user-456";
     entity.Item := "Test Item";
     entity.Amount := amount_99_99;
     entity.Status := entity.OrderStatusNew;
     entity.CreatedAt := time.Date 2024 1 15 13 30 0 0 10800 |}.

(** A mock whose [CreateFunc] succeeds after writing an id and a status
    of its own into the order it was given. *)
Definition assigningMock : store.MockOrderStore :=
  {| store.CreateFunc := Some (fun order =>
       ({| entity.ID := "assigned-by-store";
           entity.UserID := entity.UserID order;
           entity.Item := entity.Item order;
           entity.Amount := entity.Amount order;
           entity.Status := entity.OrderStatusFinished;
           entity.CreatedAt := entity.CreatedAt order |}, None));
     store.GetFunc := None; store.ListFunc := None; store.CloseFunc := None |}.

(** A mock whose [GetFunc] answers every id with [r]. *)
Definition getMock (r : option entity.Order * option error) : store.MockOrderStore :=
  {| store.CreateFunc := None; store.GetFunc := Some (fun _ => r);
     store.ListFunc := None; store.CloseFunc := None |}.

Definition listMock (r : list (option entity.Order) * option error)
  : store.MockOrderStore :=
  {| store.CreateFunc := None; store.GetFunc := None;
     store.ListFunc := Some r; store.CloseFunc := None |}.

End samples.

(** ** Package sql and the database behind PostgresStore *)

Module sql.

(** [sql.ErrNoRows], a package-level variable of [database/sql]. *)
Definition ErrNoRows : errors.sentinel := errors.ErrNoRows.

End sql.

Module sqlx.

(** The operations of [sqlx.DB] that the store uses, over a connection
    (and database) whose state is [Conn]. [GetContext] and [SelectContext]
    receive the destination as the caller initialised it and return it as
    the call left it. [NamedExecContext] binds the named parameters of the
    statement from the fields of its argument, which it only reads. *)
Record DB (Conn : Type) : Type := mkDB {
  Open : string -> string -> Conn -> option error * Conn;
  Ping : Conn -> option error * Conn;
  Exec : string -> Conn -> option error * Conn;
  NamedExecContext : string -> entity.Order -> Conn -> option error * Conn;
  GetContext : string -> string -> entity.Order -> Conn
               -> (entity.Order * option error) * Conn;
  SelectContext : string -> list (option entity.Order) -> Conn
                  -> (list (option entity.Order) * option error) * Conn;
  Close : Conn -> option error * Conn
}.
Arguments Open {Conn} _ _ _ _.
Arguments Ping {Conn} _ _.
Arguments Exec {Conn} _ _ _.
Arguments NamedExecContext {Conn} _ _ _ _.
Arguments GetContext {Conn} _ _ _ _ _.
Arguments SelectContext {Conn} _ _ _ _.
Arguments Close {Conn} _ _.

End sqlx.

Module postgres.

(** The zero [time.Time]: January 1 of year 1, 00:00:00 UTC. *)
Definition zeroTime : time.Time :=
  {| time.unix := -62135596800; time.nsec := 0; time.offset := 0 |}.

(** [var order entity.Order]. *)
Definition zeroOrder : entity.Order :=
  {| entity.ID := ""; entity.UserID := ""; entity.Item := "";
     entity.Amount := float64_zero; entity.Status := "";
     entity.CreatedAt := zeroTime |}.

(** The SQL statements, as the raw string literals of the source. *)
Definition schemaQuery : string :=
  "
		CREATE TABLE IF NOT EXISTS orders (
			id VARCHAR(36) PRIMARY KEY,
			user_id VARCHAR(255) NOT NULL,
			item VARCHAR(255) NOT NULL,
			amount DECIMAL(10, 2) NOT NULL,
			status VARCHAR(50) NOT NULL,
			created_at TIMESTAMP NOT NULL
		)
	".

Definition createQuery : string :=
  "
		INSERT INTO orders (id, user_id, item, amount, status, created_at)
		VALUES (:id, :user_id, :item, :amount, :status, :created_at)".

Definition getQuery : string :=
  "SELECT id, user_id, item, amount, status, created_at FROM orders WHERE id = $1".

Definition listQuery : string :=
  "SELECT id, user_id, item, amount, status, created_at FROM orders ORDER BY created_at DESC".

Section PostgresStore.

Context {Conn : Type}.
Variable db : sqlx.DB Conn.

Definition createSchema (c : Conn) : option error * Conn :=
  sqlx.Exec db schemaQuery c.

Definition Create (order : entity.Order) (c : Conn)
  : (entity.Order * option error) * Conn :=
  let (err, c') := sqlx.NamedExecContext db createQuery order c in
  ((order, err), c').

Definition Get (id : string) (c : Conn)
  : (option entity.Order * option error) * Conn :=
  let '((order, err), c') := sqlx.GetContext db getQuery id zeroOrder c in
  match err with
  | Some e =>
      if errors.Is e sql.ErrNoRows then ((None, Some (store.ErrOrderNotFound : error)), c')
      else ((None, Some e), c')
  | None => ((Some order, None), c')
  end.

Definition List (c : Conn)
  : (list (option entity.Order) * option error) * Conn :=
  let '((orders, err), c') := sqlx.SelectContext db listQuery [] c in
  match err with
  | Some e => (([], Some e), c')
  | None => ((orders, None), c')
  end.

Definition Close (c : Conn) : option error * Conn := sqlx.Close db c.

(** [PostgresStore] as an [OrderStore]. *)
Definition PostgresStore : store.OrderStore Conn :=
  {| store.Create := Create; store.Get := Get;
     store.List := List; store.Close := Close |}.

(** [NewPostgresStore(connStr)]: open, ping, create the schema; the store
    when all three succeed, the first error otherwise. *)
Definition NewPostgresStore (connStr : string) (c : Conn)
  : reply error (store.OrderStore Conn) * Conn :=
  let (err, c1) := sqlx.Open db "postgres" connStr c in
  match err with
  | Some e => (Fail e, c1)
  | None =>
      let (err, c2) := sqlx.Ping db c1 in
      match err with
      | Some e => (Fail e, c2)
      | None =>
          let (err, c3) := createSchema c2 in
          match err with
          | Some e => (Fail e, c3)
          | None => (Resp PostgresStore, c3)
          end
      end
  end.

End PostgresStore.

End postgres.

(** ** Sample database *)

Module dbsamples.

(** A database holding at most one order; every operation succeeds,
    a lookup of an id that is not the held order's reports no rows. *)
Definition oneRow : sqlx.DB (option entity.Order) :=
  {| sqlx.Open := fun _ _ c => (None, c);
     sqlx.Ping := fun c => (None, c);
     sqlx.Exec := fun _ c => (None, c);
     sqlx.NamedExecContext := fun _ order _ => (None, Some order);
     sqlx.GetContext := fun _ id dest c =>
       match c with
       | Some o => if String.eqb (entity.ID o) id then ((o, None), c)
                   else ((dest, Some (sql.ErrNoRows : error)), c)
       | None => ((dest, Some (sql.ErrNoRows : error)), c)
       end;
     sqlx.SelectContext := fun _ dest c =>
       match c with
       | Some o => (([Some o], None), c)
       | None => ((dest, None), c)
       end;
     sqlx.Close := fun c => (None, c) |}.

(** A database that cannot be reached: the ping fails. *)
Definition unreachable : sqlx.DB nat :=
  {| sqlx.Open := fun _ _ c => (None, S c);
     sqlx.Ping := fun c => (Some (errors.New "connection refused"), S c);
     sqlx.Exec := fun _ c => (None, S c);
     sqlx.NamedExecContext := fun _ _ c => (None, S c);
     sqlx.GetContext := fun _ _ dest c => ((dest, None), S c);
     sqlx.SelectContext := fun _ dest c => ((dest, None), S c);
     sqlx.Close := fun c => (None, S c) |}.

Definition world (c : option entity.Order) : orders.World (option entity.Order) :=
  {| orders.db := c; orders.calls := []; orders.entropy := samples.uuids;
     orders.drawn := 0%nat; orders.clock := samples.wallclock;
     orders.ticks := 0%nat |}.

End dbsamples.

(** * Properties *)

(** ** float64 comparisons *)

Lemma float64_positive_not_le_zero (a : float64) :
  SFltb float64_zero a = true -> SFleb a float64_zero = false.
Proof.
  destruct a as [s | s | | s m e]; try destruct s;
    unfold SFltb, SFleb, float64_zero; simpl; congruence.
Qed.

Lemma float64_nan_not_le_zero : SFleb S754_nan float64_zero = false.
Proof. reflexivity. Qed.

(** ** Strings built from character lists *)

Lemma string_of_list_ascii_inj (l1 l2 : list ascii) :
  string_of_list_ascii l1 = string_of_list_ascii l2 -> l1 = l2.
Proof.
  intros H.
  rewrite <- (list_ascii_of_string_of_list_ascii l1),
          <- (list_ascii_of_string_of_list_ascii l2).
  now rewrite H.
Qed.

Lemma string_of_list_ascii_nonempty (l : list ascii) :
  l <> [] -> string_of_list_ascii l <> "".
Proof.
  intros Hl H. apply Hl.
  apply string_of_list_ascii_inj. exact H.
Qed.

(** ** uuid: the textual form is non-empty and determines the bytes *)

Module uuid_facts.

Import uuid.

Example String_example :
  String (repeat Byte.x00 4 ++ repeat Byte.xff 2 ++ repeat Byte.x4a 2
            ++ repeat Byte.x80 2 ++ repeat Byte.x1b 6)
  = "00000000-ffff-4a4a-8080-1b1b1b1b1b1b".
Proof. vm_compute. reflexivity. Qed.

Lemma hexbyte_value (b : Byte.byte) :
  match hexbyte b with
  | [c1; c2] => (16 * hexval c1 + hexval c2)%N
  | _ => 0%N
  end = Byte.to_N b.
Proof. destruct b; vm_compute; reflexivity. Qed.

Lemma hexbyte_inj (b1 b2 : Byte.byte) : hexbyte b1 = hexbyte b2 -> b1 = b2.
Proof.
  intros H.
  assert (E : Byte.to_N b1 = Byte.to_N b2)
    by (rewrite <- (hexbyte_value b1), <- (hexbyte_value b2), H; reflexivity).
  assert (S1 := Byte.of_to_N b1). rewrite E, Byte.of_to_N in S1.
  congruence.
Qed.

Lemma hexbyte_no_dash (b : Byte.byte) : ~ In "-"%char (hexbyte b).
Proof.
  destruct b; vm_compute; intros [H | [H | []]]; discriminate H.
Qed.

Lemma hex_cons (b : Byte.byte) (bs : list Byte.byte) :
  hex (b :: bs) = hexbyte b ++ hex bs.
Proof. reflexivity. Qed.

Lemma hex_no_dash (bs : list Byte.byte) : ~ In "-"%char (hex bs).
Proof.
  induction bs as [| b bs IH]; [intros [] |].
  rewrite hex_cons, in_app_iff. intros [H | H].
  - exact (hexbyte_no_dash b H).
  - exact (IH H).
Qed.

Lemma hex_inj (xs ys : list Byte.byte) : hex xs = hex ys -> xs = ys.
Proof.
  revert ys. induction xs as [| x xs IH]; intros [| y ys] H.
  - reflexivity.
  - discriminate H.
  - discriminate H.
  - rewrite !hex_cons in H. unfold hexbyte in H. simpl in H.
    injection H as H1 H2 H3.
    f_equal; [| now apply IH].
    apply hexbyte_inj. unfold hexbyte. now rewrite H1, H2.
Qed.

(** Two dash-free prefixes before a dash: the dash splits uniquely. *)
Lemma split_at_dash (a a' b b' : list ascii) :
  ~ In "-"%char a -> ~ In "-"%char a' ->
  a ++ "-"%char :: b = a' ++ "-"%char :: b' -> a = a' /\ b = b'.
Proof.
  revert a'. induction a as [| c a IH]; intros [| c' a'] Ha Ha' H; simpl in *.
  - injection H as ->. auto.
  - injection H as <- _. exfalso. apply Ha'. now left.
  - injection H as -> _. exfalso. apply Ha. now left.
  - injection H as -> H.
    destruct (IH a') as [-> ->]; auto.
Qed.

Lemma rejoin (u : UUID) :
  u = firstn 4 u ++ firstn 2 (skipn 4 u) ++ firstn 2 (skipn 6 u)
        ++ firstn 2 (skipn 8 u) ++ skipn 10 u.
Proof.
  rewrite <- (firstn_skipn 4 u) at 1. f_equal.
  rewrite <- (firstn_skipn 2 (skipn 4 u)) at 1. f_equal.
  rewrite skipn_skipn. simpl.
  rewrite <- (firstn_skipn 2 (skipn 6 u)) at 1. f_equal.
  rewrite skipn_skipn. simpl.
  rewrite <- (firstn_skipn 2 (skipn 8 u)) at 1. f_equal.
  rewrite skipn_skipn. reflexivity.
Qed.

Lemma encodeHex_inj (u v : UUID) : encodeHex u = encodeHex v -> u = v.
Proof.
  unfold encodeHex. intros H.
  apply split_at_dash in H; try apply hex_no_dash. destruct H as [H1 H].
  apply split_at_dash in H; try apply hex_no_dash. destruct H as [H2 H].
  apply split_at_dash in H; try apply hex_no_dash. destruct H as [H3 H].
  apply split_at_dash in H; try apply hex_no_dash. destruct H as [H4 H5].
  apply hex_inj in H1, H2, H3, H4, H5.
  rewrite (rejoin u), (rejoin v). congruence.
Qed.

Lemma String_inj (u v : UUID) : String u = String v -> u = v.
Proof.
  intros H. apply encodeHex_inj, string_of_list_ascii_inj, H.
Qed.

Lemma String_nonempty (u : UUID) : String u <> "".
Proof.
  apply string_of_list_ascii_nonempty. unfold encodeHex.
  apply not_eq_sym, app_cons_not_nil.
Qed.

End uuid_facts.

(** ** time: the RFC 3339 rendering *)

Module time_facts.

Import time.

Example Format_epoch : FormatRFC3339 (mkTime 0 0 0) = "1970-01-01T00:00:00Z".
Proof. vm_compute. reflexivity. Qed.

Example Format_before_epoch :
  FormatRFC3339 (mkTime (-1) 999999999 0) = "1969-12-31T23:59:59Z".
Proof. vm_compute. reflexivity. Qed.

Example Format_leap_day :
  FormatRFC3339 (Date 2024 2 29 23 59 59 0 0) = "2024-02-29T23:59:59Z".
Proof. vm_compute. reflexivity. Qed.

Example Format_century :
  FormatRFC3339 (Date 1900 3 1 0 0 0 0 0) = "1900-03-01T00:00:00Z"
  /\ FormatRFC3339 (Date 2000 2 29 12 0 0 0 0) = "2000-02-29T12:00:00Z".
Proof. split; vm_compute; reflexivity. Qed.

Example Format_west :
  FormatRFC3339 (mkTime 1705314600 0 (-19800)) = "2024-01-15T05:00:00-05:30".
Proof. vm_compute. reflexivity. Qed.

Example Format_test_dates :
  FormatRFC3339 (Date 2024 1 16 14 45 0 0 0) = "2024-01-16T14:45:00Z"
  /\ FormatRFC3339 (Date 2024 1 17 9 0 0 0 0) = "2024-01-17T09:00:00Z".
Proof. split; vm_compute; reflexivity. Qed.

Lemma last_app_nonempty {A} (l1 l2 : list A) (d : A) :
  l2 <> [] -> last (l1 ++ l2) d = last l2 d.
Proof.
  intros H. destruct (exists_last H) as [l [a ->]].
  now rewrite app_assoc, !last_last.
Qed.

Lemma uint_chars_digits (d : Decimal.uint) :
  Forall (fun c => isDigit c = true)
         (list_ascii_of_string (NilEmpty.string_of_uint d)).
Proof. induction d; simpl; constructor; auto. Qed.

Lemma digits_are_digits (u : Z) : Forall (fun c => isDigit c = true) (digits u).
Proof.
  unfold digits, NilZero.string_of_uint.
  destruct (N.to_uint (Z.to_N u)) eqn:E;
    try (rewrite <- E; apply uint_chars_digits).
  repeat constructor.
Qed.

Lemma digits_nonempty (u : Z) : digits u <> [].
Proof.
  unfold digits, NilZero.string_of_uint.
  destruct (N.to_uint (Z.to_N u)); simpl; discriminate.
Qed.

Lemma isDigit_layoutChar (c : ascii) : isDigit c = true -> layoutChar c = true.
Proof. unfold layoutChar. now intros ->. Qed.

Lemma appendInt_layout (x : Z) (width : nat) :
  Forall (fun c => layoutChar c = true) (appendInt x width).
Proof.
  assert (P : Forall (fun c => layoutChar c = true)
                (repeat "0"%char (width - List.length (digits (Z.abs x)))
                   ++ digits (Z.abs x))).
  { apply Forall_app. split.
    - apply Forall_forall. intros c Hc. apply repeat_spec in Hc. now subst.
    - eapply Forall_impl; [| apply digits_are_digits].
      intros c. apply isDigit_layoutChar. }
  unfold appendInt. destruct (x <? 0); [constructor |]; auto.
Qed.

Lemma appendInt_last_digit (x : Z) (width : nat) :
  isDigit (last (appendInt x width) " "%char) = true.
Proof.
  assert (P : forall pre, isDigit (last (pre ++ digits (Z.abs x)) " "%char) = true).
  { intros pre. rewrite last_app_nonempty by apply digits_nonempty.
    destruct (exists_last (digits_nonempty (Z.abs x))) as [l [a E]].
    pose proof (digits_are_digits (Z.abs x)) as F. rewrite E in *.
    rewrite last_last. apply Forall_app in F. destruct F as [_ F].
    now inversion F. }
  unfold appendInt. destruct (x <? 0).
  - rewrite app_comm_cons. apply P.
  - apply P.
Qed.

Lemma appendInt_nonempty (x : Z) (width : nat) : appendInt x width <> [].
Proof.
  unfold appendInt. destruct (x <? 0); [discriminate |].
  intros H. apply app_eq_nil in H. destruct H as [_ H].
  exact (digits_nonempty _ H).
Qed.

Lemma appendZone_layout (off : Z) :
  Forall (fun c => layoutChar c = true) (appendZone off).
Proof.
  unfold appendZone. destruct (off =? 0); [repeat constructor |].
  constructor; [now destruct (Z.quot off 60 <? 0) |].
  apply Forall_app. split; [apply appendInt_layout |].
  constructor; [reflexivity | apply appendInt_layout].
Qed.

Lemma appendDateTime_layout (t : Time) :
  Forall (fun c => layoutChar c = true) (appendDateTime t).
Proof.
  unfold appendDateTime.
  destruct (civil_from_days ((unix t + offset t) / 86400)) as [[y m] d].
  repeat first [ apply appendInt_layout
               | apply Forall_app; split
               | apply Forall_cons; [reflexivity |] ].
Qed.

(** No fraction of a second is rendered. *)
Lemma Format_no_fraction (t : Time) : ~ In "."%char (FormatRFC3339_chars t).
Proof.
  intros H.
  assert (F : Forall (fun c => layoutChar c = true) (FormatRFC3339_chars t)).
  { apply Forall_app. split; [apply appendDateTime_layout | apply appendZone_layout]. }
  rewrite Forall_forall in F. specialize (F _ H). discriminate F.
Qed.

(** The sub-second part plays no role in the rendering. *)
Lemma Format_truncates (t : Time) :
  FormatRFC3339 t = FormatRFC3339 (TruncateSecond t).
Proof. reflexivity. Qed.

Lemma Format_nonempty (t : Time) : FormatRFC3339 t <> "".
Proof.
  apply string_of_list_ascii_nonempty.
  unfold FormatRFC3339_chars, appendZone.
  destruct (offset t =? 0); apply not_eq_sym, app_cons_not_nil.
Qed.

(** The rendering ends in [Z] exactly for a zero offset; otherwise it
    ends in the digits of a numeric offset. *)
Lemma Format_Z_iff (t : Time) :
  last (FormatRFC3339_chars t) " "%char = "Z"%char <-> offset t = 0.
Proof.
  unfold FormatRFC3339_chars, appendZone.
  destruct (Z.eqb_spec (offset t) 0) as [E | E].
  - rewrite last_last. tauto.
  - split; [| contradiction]. intros H. exfalso.
    rewrite last_app_nonempty in H by discriminate.
    rewrite app_comm_cons, last_app_nonempty in H by discriminate.
    change (":"%char :: ?l) with ([":"%char] ++ l) in H.
    rewrite last_app_nonempty in H by apply appendInt_nonempty.
    pose proof (appendInt_last_digit (Z.rem (Z.abs (Z.quot (offset t) 60)) 60) 2) as D.
    rewrite H in D. discriminate D.
Qed.

Lemma Format_UTC (t : Time) :
  offset t = 0 -> FormatRFC3339 (UTC t) = FormatRFC3339 t.
Proof. destruct t as [u n o]. simpl. now intros ->. Qed.

End time_facts.

(** ** The handlers *)

Import orders connect.

Lemma newCalls_same {St A} (w : World St) (r : result A) :
  newCalls w (r, w) = [].
Proof. unfold newCalls. simpl. apply skipn_all. Qed.

Lemma newCalls_one {St A} (w w' : World St) (r : result A) (c : StoreCall) :
  calls w' = calls w ++ [c] -> newCalls w (r, w') = [c].
Proof.
  intros H. unfold newCalls. simpl. rewrite H, skipn_app, skipn_all.
  now rewrite Nat.sub_diag.
Qed.

Lemma createOrder_validate_spec (req : orderv1.CreateOrderRequest.t) :
  createOrderHandler_validate req =
  if String.eqb (orderv1.CreateOrderRequest.UserId req) ""
     || String.eqb (orderv1.CreateOrderRequest.Item req) ""
     || SFleb (orderv1.CreateOrderRequest.Amount req) float64_zero
  then Some (NewError CodeInvalidArgument None)
  else None.
Proof.
  unfold createOrderHandler_validate.
  destruct (String.eqb _ ""); [reflexivity |].
  destruct (String.eqb _ ""); [reflexivity |].
  destruct (SFleb _ _); reflexivity.
Qed.

(** C1. A CreateOrder request with an empty user_id, an empty item or an
    amount less than or equal to zero is answered with the
    invalid-argument error, the world is left as it was, so the store's
    Create is not invoked; validation is the first failure among the
    checks on user_id, item and amount, in this order. *)
Theorem createOrder_invalid_input {St} (st : store.OrderStore St)
    (w : World St) (req : orderv1.CreateOrderRequest.t) :
  orderv1.CreateOrderRequest.UserId req = ""
  \/ orderv1.CreateOrderRequest.Item req = ""
  \/ SFleb (orderv1.CreateOrderRequest.Amount req) float64_zero = true ->
  createOrderHandler_Handle st req w
    = (Value (Fail (NewError CodeInvalidArgument None)), w)
  /\ newCalls w (createOrderHandler_Handle st req w) = []
  /\ createOrderHandler_validate req
     = firstFailure
         [ (String.eqb (orderv1.CreateOrderRequest.UserId req) "",
            NewError CodeInvalidArgument None);
           (String.eqb (orderv1.CreateOrderRequest.Item req) "",
            NewError CodeInvalidArgument None);
           (SFleb (orderv1.CreateOrderRequest.Amount req) float64_zero,
            NewError CodeInvalidArgument None) ].
Proof.
  intros H.
  assert (E : createOrderHandler_Handle st req w
              = (Value (Fail (NewError CodeInvalidArgument None)), w)).
  { unfold createOrderHandler_Handle. rewrite createOrder_validate_spec.
    destruct H as [H | [H | H]]; rewrite H; simpl;
      rewrite ?orb_true_r; reflexivity. }
  split; [exact E |]. split.
  - rewrite E. apply newCalls_same.
  - unfold createOrderHandler_validate, firstFailure.
    destruct (String.eqb _ ""); [reflexivity |].
    destruct (String.eqb _ ""); [reflexivity |].
    destruct (SFleb _ _); reflexivity.
Qed.

Lemma createOrder_invalid_input_witness :
  let req := orderv1.CreateOrderRequest.mk "user-123" "Test Item" (S754_zero true) in
  SFleb (orderv1.CreateOrderRequest.Amount req) float64_zero = true
  /\ createOrderHandler_Handle (store.Mock store.emptyMock) req samples.world
     = (Value (Fail (NewError CodeInvalidArgument None)), samples.world).
Proof.
  split; [reflexivity |].
  apply (createOrder_invalid_input (store.Mock store.emptyMock) samples.world
           (orderv1.CreateOrderRequest.mk "user-123" "Test Item" (S754_zero true))).
  right. right. reflexivity.
Defined.

(** C9. Whatever the operation and whatever the field that failed, a
    validation error is the invalid-argument code with no underlying error,
    hence no message: two validation failures are the same error value. *)
Theorem validation_errors_identical (r1 r2 : Request) (e1 e2 : Error) :
  validate r1 = Some e1 -> validate r2 = Some e2 ->
  e1 = e2 /\ e1 = NewError CodeInvalidArgument None
  /\ code e1 = CodeInvalidArgument /\ underlying e1 = None.
Proof.
  assert (V : forall r e, validate r = Some e -> e = NewError CodeInvalidArgument None).
  { intros [req | req | req | req] e; simpl.
    - rewrite createOrder_validate_spec.
      destruct (_ || _); congruence.
    - unfold getOrderHandler_validate. destruct (String.eqb _ ""); congruence.
    - unfold listOrdersHandler_validate. discriminate.
    - unfold checkOrderOwnerHandler_validate.
      destruct (String.eqb _ ""); [congruence |].
      destruct (String.eqb _ ""); congruence. }
  intros H1 H2. apply V in H1, H2. subst. repeat split.
Qed.

Lemma validation_errors_identical_witness :
  let r1 := ReqCreateOrder (orderv1.CreateOrderRequest.mk "user-123" "" samples.amount_99_99) in
  let r2 := ReqCheckOrderOwner (orderv1.CheckOrderOwnerRequest.mk "" "user-456") in
  let e := NewError CodeInvalidArgument None in
  validate r1 = Some e /\ validate r2 = Some e
  /\ (e = e /\ e = NewError CodeInvalidArgument None
      /\ code e = CodeInvalidArgument /\ underlying e = None).
Proof.
  split; [reflexivity |]. split; [reflexivity |].
  apply (validation_errors_identical
           (ReqCreateOrder (orderv1.CreateOrderRequest.mk "user-123" "" samples.amount_99_99))
           (ReqCheckOrderOwner (orderv1.CheckOrderOwnerRequest.mk "" "user-456")));
    reflexivity.
Defined.

(** *** GetOrder *)

Lemma getOrder_run {St} (st : store.OrderStore St) (w : World St)
    (req : orderv1.GetOrderRequest.t) order err s :
  orderv1.GetOrderRequest.Id req <> "" ->
  store.Get st (orderv1.GetOrderRequest.Id req) (db w) = ((order, err), s) ->
  getOrderHandler_Handle st req w =
  let w' := logged w (CallGet (orderv1.GetOrderRequest.Id req)) s in
  match err with
  | Some e =>
      (Value (Fail (NewError (if errors.Is e store.ErrOrderNotFound
                              then CodeNotFound else CodeInternal) (Some e))), w')
  | None =>
      match order with
      | Some o => (Value (Resp {| orderv1.GetOrderResponse.Order := toProto o |}), w')
      | None => (Panic, w')
      end
  end.
Proof.
  intros Hid Hget. apply String.eqb_neq in Hid.
  unfold getOrderHandler_Handle, getOrderHandler_validate. rewrite Hid.
  unfold bind, store_Get. rewrite Hget. simpl.
  destruct err as [e |].
  - destruct (errors.Is e store.ErrOrderNotFound); reflexivity.
  - destruct order; reflexivity.
Qed.

(** C4, as amended. An empty id is answered with invalid-argument and no
    store call. Otherwise the handler makes exactly one store Get, and: an
    error that is the not-found sentinel, or wraps it, gives NotFound; an
    error that neither is nor wraps the sentinel gives the internal error;
    a found order is returned in wire form. *)
Theorem getOrder_outcomes {St} (st : store.OrderStore St) (w : World St)
    (req : orderv1.GetOrderRequest.t) :
  (orderv1.GetOrderRequest.Id req = "" ->
   getOrderHandler_Handle st req w = (Value (Fail (NewError CodeInvalidArgument None)), w)
   /\ newCalls w (getOrderHandler_Handle st req w) = [])
  /\ (orderv1.GetOrderRequest.Id req <> "" ->
      newCalls w (getOrderHandler_Handle st req w)
        = [CallGet (orderv1.GetOrderRequest.Id req)]
      /\ forall order err s,
          store.Get st (orderv1.GetOrderRequest.Id req) (db w) = ((order, err), s) ->
          let w' := logged w (CallGet (orderv1.GetOrderRequest.Id req)) s in
          (forall e, err = Some e -> errors.Is e store.ErrOrderNotFound = true ->
             getOrderHandler_Handle st req w
               = (Value (Fail (NewError CodeNotFound (Some e))), w'))
          /\ (forall e, err = Some e -> errors.Is e store.ErrOrderNotFound = false ->
                getOrderHandler_Handle st req w
                  = (Value (Fail (NewError CodeInternal (Some e))), w'))
          /\ (forall o, err = None -> order = Some o ->
                getOrderHandler_Handle st req w
                  = (Value (Resp {| orderv1.GetOrderResponse.Order := toProto o |}), w'))).
Proof.
  split.
  - intros Hid.
    assert (E : getOrderHandler_Handle st req w
                = (Value (Fail (NewError CodeInvalidArgument None)), w)).
    { unfold getOrderHandler_Handle, getOrderHandler_validate. now rewrite Hid. }
    split; [exact E | rewrite E; apply newCalls_same].
  - intros Hid. split.
    + destruct (store.Get st (orderv1.GetOrderRequest.Id req) (db w))
        as [[order err] s] eqn:Hget.
      rewrite (getOrder_run st w req order err s Hid Hget).
      destruct err as [e |]; [| destruct order]; simpl;
        apply newCalls_one; reflexivity.
    + intros order err s Hget w'.
      pose proof (getOrder_run st w req order err s Hid Hget) as R.
      repeat split.
      * intros e -> He. rewrite R. simpl. now rewrite He.
      * intros e -> He. rewrite R. simpl. now rewrite He.
      * intros o -> ->. exact R.
Qed.

Lemma getOrder_outcomes_witness :
  let req := orderv1.GetOrderRequest.mk "order-123" in
  let st := store.Mock (samples.getMock (Some samples.order1, None)) in
  orderv1.GetOrderRequest.Id req <> ""
  /\ getOrderHandler_Handle st req samples.world
     = (Value (Resp {| orderv1.GetOrderResponse.Order := toProto samples.order1 |}),
        logged samples.world (CallGet "order-123") tt).
Proof.
  split; [discriminate |].
  destruct (getOrder_outcomes
              (store.Mock (samples.getMock (Some samples.order1, None)))
              samples.world (orderv1.GetOrderRequest.mk "order-123")) as [_ H].
  destruct (H ltac:(discriminate)) as [_ H'].
  destruct (H' (Some samples.order1) None tt eq_refl) as [_ [_ H'']].
  exact (H'' samples.order1 eq_refl eq_refl).
Defined.

(** C4 as first stated fails: an error that wraps the sentinel is another
    error than the sentinel, and the handler answers it with NotFound, not
    with the internal error. *)
Lemma getOrder_wrapped_sentinel :
  let e := errors.Wrap "query order" store.ErrOrderNotFound in
  let st := store.Mock (samples.getMock (None, Some e)) in
  let req := orderv1.GetOrderRequest.mk "order-123" in
  e <> store.ErrOrderNotFound
  /\ fst (getOrderHandler_Handle st req samples.world)
     = Value (Fail (NewError CodeNotFound (Some e)))
  /\ fst (getOrderHandler_Handle st req samples.world)
     <> Value (Fail (NewError CodeInternal (Some e))).
Proof.
  split; [discriminate |]. split; [reflexivity | discriminate].
Qed.

(** *** CheckOrderOwner *)

Lemma checkOrderOwner_run {St} (st : store.OrderStore St) (w : World St)
    (req : orderv1.CheckOrderOwnerRequest.t) order err s :
  orderv1.CheckOrderOwnerRequest.OrderId req <> "" ->
  orderv1.CheckOrderOwnerRequest.UserId req <> "" ->
  store.Get st (orderv1.CheckOrderOwnerRequest.OrderId req) (db w) = ((order, err), s) ->
  checkOrderOwnerHandler_Handle st req w =
  let w' := logged w (CallGet (orderv1.CheckOrderOwnerRequest.OrderId req)) s in
  match err with
  | Some e =>
      (Value (Fail (NewError (if errors.Is e store.ErrOrderNotFound
                              then CodeNotFound else CodeInternal) (Some e))), w')
  | None =>
      match order with
      | Some o =>
          if String.eqb (entity.UserID o) (orderv1.CheckOrderOwnerRequest.UserId req)
          then (Value (Resp orderv1.CheckOrderOwnerResponse.mk), w')
          else (Value (Fail (NewError CodePermissionDenied
                  (Some (errors.New "order does not belong to user")))), w')
      | None => (Panic, w')
      end
  end.
Proof.
  intros Hid Huser Hget. apply String.eqb_neq in Hid, Huser.
  unfold checkOrderOwnerHandler_Handle, checkOrderOwnerHandler_validate. rewrite Hid, Huser.
  unfold bind, store_Get. rewrite Hget. simpl.
  destruct err as [e |].
  - destruct (errors.Is e store.ErrOrderNotFound); reflexivity.
  - destruct order as [o |]; [| reflexivity]. simpl.
    destruct (String.eqb (entity.UserID o) _); reflexivity.
Qed.

(** C3, as amended. With order_id or user_id empty the handler answers
    invalid-argument and calls no store operation. Otherwise it fetches
    the order: an error that is or wraps the not-found sentinel gives
    NotFound whatever order comes with it, before any comparison of
    owners; an error that neither is nor wraps the sentinel gives the
    internal error; a found order of another user gives PermissionDenied
    with the message "order does not belong to user"; a found order of
    this user gives the empty success response. *)
Theorem checkOrderOwner_outcomes {St} (st : store.OrderStore St) (w : World St)
    (req : orderv1.CheckOrderOwnerRequest.t) :
  (orderv1.CheckOrderOwnerRequest.OrderId req = ""
   \/ orderv1.CheckOrderOwnerRequest.UserId req = "" ->
   checkOrderOwnerHandler_Handle st req w
     = (Value (Fail (NewError CodeInvalidArgument None)), w)
   /\ newCalls w (checkOrderOwnerHandler_Handle st req w) = [])
  /\ (orderv1.CheckOrderOwnerRequest.OrderId req <> "" ->
      orderv1.CheckOrderOwnerRequest.UserId req <> "" ->
      forall order err s,
        store.Get st (orderv1.CheckOrderOwnerRequest.OrderId req) (db w)
          = ((order, err), s) ->
        let w' := logged w (CallGet (orderv1.CheckOrderOwnerRequest.OrderId req)) s in
        (forall e, err = Some e -> errors.Is e store.ErrOrderNotFound = true ->
           checkOrderOwnerHandler_Handle st req w
             = (Value (Fail (NewError CodeNotFound (Some e))), w'))
        /\ (forall e, err = Some e -> errors.Is e store.ErrOrderNotFound = false ->
              checkOrderOwnerHandler_Handle st req w
                = (Value (Fail (NewError CodeInternal (Some e))), w'))
        /\ (forall o, err = None -> order = Some o ->
              entity.UserID o <> orderv1.CheckOrderOwnerRequest.UserId req ->
              checkOrderOwnerHandler_Handle st req w
                = (Value (Fail (NewError CodePermissionDenied
                     (Some (errors.New "order does not belong to user")))), w'))
        /\ (forall o, err = None -> order = Some o ->
              entity.UserID o = orderv1.CheckOrderOwnerRequest.UserId req ->
              checkOrderOwnerHandler_Handle st req w
                = (Value (Resp orderv1.CheckOrderOwnerResponse.mk), w'))).
Proof.
  split.
  - intros H.
    assert (E : checkOrderOwnerHandler_Handle st req w
                = (Value (Fail (NewError CodeInvalidArgument None)), w)).
    { unfold checkOrderOwnerHandler_Handle, checkOrderOwnerHandler_validate.
      destruct H as [H | H]; rewrite H; simpl; [reflexivity |].
      destruct (String.eqb _ ""); reflexivity. }
    split; [exact E | rewrite E; apply newCalls_same].
  - intros Hid Huser order err s Hget w'.
    pose proof (checkOrderOwner_run st w req order err s Hid Huser Hget) as R.
    repeat split.
    + intros e -> He. rewrite R. simpl. now rewrite He.
    + intros e -> He. rewrite R. simpl. now rewrite He.
    + intros o -> -> Hne. rewrite R. simpl.
      apply String.eqb_neq in Hne. now rewrite Hne.
    + intros o -> -> He. rewrite R. simpl.
      apply String.eqb_eq in He. now rewrite He.
Qed.

Lemma checkOrderOwner_outcomes_witness :
  let req := orderv1.CheckOrderOwnerRequest.mk "order-123" "someone-else" in
  let st := store.Mock (samples.getMock (Some samples.order1, None)) in
  orderv1.CheckOrderOwnerRequest.OrderId req <> ""
  /\ orderv1.CheckOrderOwnerRequest.UserId req <> ""
  /\ entity.UserID samples.order1 <> orderv1.CheckOrderOwnerRequest.UserId req
  /\ checkOrderOwnerHandler_Handle st req samples.world
     = (Value (Fail (NewError CodePermissionDenied
          (Some (errors.New "order does not belong to user")))),
        logged samples.world (CallGet "order-123") tt).
Proof.
  split; [discriminate |]. split; [discriminate |]. split; [discriminate |].
  destruct (checkOrderOwner_outcomes
              (store.Mock (samples.getMock (Some samples.order1, None)))
              samples.world
              (orderv1.CheckOrderOwnerRequest.mk "order-123" "someone-else"))
    as [_ H].
  destruct (H ltac:(discriminate) ltac:(discriminate)
              (Some samples.order1) None tt eq_refl) as [_ [_ [H' _]]].
  exact (H' samples.order1 eq_refl eq_refl ltac:(discriminate)).
Defined.

(** C3 as first stated fails: a store error that wraps the sentinel is
    another error than the sentinel, and the handler answers it with
    NotFound, not with the internal error. *)
Lemma checkOrderOwner_wrapped_sentinel :
  let e := errors.Wrap "query order" store.ErrOrderNotFound in
  let st := store.Mock (samples.getMock (None, Some e)) in
  let req := orderv1.CheckOrderOwnerRequest.mk "order-123" "user-456" in
  e <> store.ErrOrderNotFound
  /\ fst (checkOrderOwnerHandler_Handle st req samples.world)
     = Value (Fail (NewError CodeNotFound (Some e)))
  /\ fst (checkOrderOwnerHandler_Handle st req samples.world)
     <> Value (Fail (NewError CodeInternal (Some e))).
Proof.
  split; [discriminate |]. split; [reflexivity | discriminate].
Qed.

(** *** ListOrders *)

Lemma convertAll_map (os : list entity.Order) :
  convertAll (map Some os) = Value (map toProto os).
Proof.
  induction os as [| o os IH]; simpl; [reflexivity |].
  now rewrite IH.
Qed.

(** C5. Whatever sequence of orders the store's List returns, the empty
    one included, the handler answers with the wire conversion of each
    order, in the same order and of the same length; an empty result is an
    empty sequence and not an error; a store error is answered with the
    internal error. *)
Theorem listOrders_outcomes {St} (st : store.OrderStore St) (w : World St)
    (req : orderv1.ListOrdersRequest.t) :
  (forall (os : list entity.Order) s,
     store.List st (db w) = ((map Some os, None), s) ->
     listOrdersHandler_Handle st req w
       = (Value (Resp {| orderv1.ListOrdersResponse.Orders := map toProto os |}), logged w CallList s)
     /\ List.length (map toProto os) = List.length os
     /\ forall i, nth_error (map toProto os) i = option_map toProto (nth_error os i))
  /\ (forall s,
        store.List st (db w) = (([], None), s) ->
        listOrdersHandler_Handle st req w
          = (Value (Resp {| orderv1.ListOrdersResponse.Orders := [] |}), logged w CallList s))
  /\ (forall r e s,
        store.List st (db w) = ((r, Some e), s) ->
        listOrdersHandler_Handle st req w
          = (Value (Fail (NewError CodeInternal (Some e))), logged w CallList s)).
Proof.
  assert (A : forall (os : list entity.Order) s,
             store.List st (db w) = ((map Some os, None), s) ->
             listOrdersHandler_Handle st req w
             = (Value (Resp {| orderv1.ListOrdersResponse.Orders := map toProto os |}),
                logged w CallList s)).
  { intros os s H. unfold listOrdersHandler_Handle, listOrdersHandler_validate, bind, store_List.
    rewrite H. simpl. unfold bind, lift. now rewrite convertAll_map. }
  split; [| split].
  - intros os s H. split; [now apply A |]. split.
    + apply length_map.
    + intros i. apply nth_error_map.
  - intros s H. exact (A [] s H).
  - intros r e s H. unfold listOrdersHandler_Handle, listOrdersHandler_validate, bind, store_List.
    now rewrite H.
Qed.

Lemma listOrders_outcomes_witness :
  let os := [samples.order_east; samples.order1] in
  let st := store.Mock (samples.listMock (map Some os, None)) in
  store.List st (db samples.world) = ((map Some os, None), tt)
  /\ listOrdersHandler_Handle st orderv1.ListOrdersRequest.mk samples.world
     = (Value (Resp {| orderv1.ListOrdersResponse.Orders := map toProto os |}),
        logged samples.world CallList tt).
Proof.
  split; [reflexivity |].
  destruct (listOrders_outcomes
              (store.Mock (samples.listMock
                 (map Some [samples.order_east; samples.order1], None)))
              samples.world orderv1.ListOrdersRequest.mk) as [H _].
  exact (proj1 (H [samples.order_east; samples.order1] tt eq_refl)).
Defined.

(** *** A nil order from the store *)

(** C8. The Get and CheckOwner handlers read the order the store returned
    without a nil check: past validation, they panic exactly when the
    store's Get returns a nil order together with a nil error, which is
    what the mock store returns when no function is set. So they return a
    response or an error whenever a Get without error comes with an
    order. *)
Theorem nil_order_panics {St} (st : store.OrderStore St) (w : World St) :
  (forall req,
     fst (getOrderHandler_Handle st req w) = Panic
     <-> orderv1.GetOrderRequest.Id req <> ""
         /\ fst (store.Get st (orderv1.GetOrderRequest.Id req) (db w))
            = (None, None))
  /\ (forall req,
        fst (checkOrderOwnerHandler_Handle st req w) = Panic
        <-> orderv1.CheckOrderOwnerRequest.OrderId req <> ""
            /\ orderv1.CheckOrderOwnerRequest.UserId req <> ""
            /\ fst (store.Get st (orderv1.CheckOrderOwnerRequest.OrderId req) (db w))
               = (None, None))
  /\ (forall id u, store.Get (store.Mock store.emptyMock) id u = ((None, None), u)).
Proof.
  split; [| split].
  - intros req.
    destruct (String.eqb_spec (orderv1.GetOrderRequest.Id req) "") as [Hid | Hid].
    + unfold getOrderHandler_Handle, getOrderHandler_validate. rewrite Hid. simpl.
      split; [discriminate | intros [H _]; now elim H].
    + destruct (store.Get st _ (db w)) as [[order err] s] eqn:E.
      rewrite (getOrder_run st w req order err s Hid E). simpl.
      destruct err as [e |]; [| destruct order as [o |]]; simpl;
        (split; [try discriminate; auto | intros [_ H]; congruence]).
  - intros req.
    destruct (String.eqb_spec (orderv1.CheckOrderOwnerRequest.OrderId req) "")
      as [Hid | Hid].
    { unfold checkOrderOwnerHandler_Handle, checkOrderOwnerHandler_validate. rewrite Hid. simpl.
      split; [discriminate | intros [H _]; now elim H]. }
    destruct (String.eqb_spec (orderv1.CheckOrderOwnerRequest.UserId req) "")
      as [Hu | Hu].
    { unfold checkOrderOwnerHandler_Handle, checkOrderOwnerHandler_validate. rewrite Hu.
      destruct (String.eqb _ ""); simpl;
        (split; [discriminate | intros [_ [H _]]; now elim H]). }
    destruct (store.Get st _ (db w)) as [[order err] s] eqn:E.
    rewrite (checkOrderOwner_run st w req order err s Hid Hu E). simpl.
    destruct err as [e |]; [| destruct order as [o |]]; simpl.
    + split; [discriminate | intros [_ [_ H]]; congruence].
    + destruct (String.eqb (entity.UserID o) _); simpl;
        (split; [discriminate | intros [_ [_ H]]; congruence]).
    + split; auto.
  - reflexivity.
Qed.

Lemma nil_order_panics_witness :
  let st := store.Mock store.emptyMock in
  fst (store.Get st "order-123" (db samples.world)) = (None, None)
  /\ fst (getOrderHandler_Handle st (orderv1.GetOrderRequest.mk "order-123") samples.world)
     = Panic
  /\ fst (checkOrderOwnerHandler_Handle st
            (orderv1.CheckOrderOwnerRequest.mk "order-123" "user-456") samples.world)
     = Panic.
Proof.
  split; [reflexivity |].
  destruct (nil_order_panics (store.Mock store.emptyMock) samples.world)
    as [G [C _]].
  split.
  - apply (G (orderv1.GetOrderRequest.mk "order-123")).
    split; [discriminate | reflexivity].
  - apply (C (orderv1.CheckOrderOwnerRequest.mk "order-123" "user-456")).
    split; [discriminate |]. split; [discriminate | reflexivity].
Defined.

(** *** CreateOrder *)

Lemma createOrder_validate_valid (req : orderv1.CreateOrderRequest.t) :
  orderv1.CreateOrderRequest.UserId req <> "" ->
  orderv1.CreateOrderRequest.Item req <> "" ->
  SFleb (orderv1.CreateOrderRequest.Amount req) float64_zero = false ->
  createOrderHandler_validate req = None.
Proof.
  intros Hu Hi Ha. apply String.eqb_neq in Hu, Hi.
  unfold createOrderHandler_validate. now rewrite Hu, Hi, Ha.
Qed.

Lemma createOrder_validate_passed (req : orderv1.CreateOrderRequest.t) :
  createOrderHandler_validate req = None ->
  orderv1.CreateOrderRequest.UserId req <> ""
  /\ orderv1.CreateOrderRequest.Item req <> ""
  /\ SFleb (orderv1.CreateOrderRequest.Amount req) float64_zero = false.
Proof.
  unfold createOrderHandler_validate.
  destruct (String.eqb_spec (orderv1.CreateOrderRequest.UserId req) "");
    [discriminate |].
  destruct (String.eqb_spec (orderv1.CreateOrderRequest.Item req) "");
    [discriminate |].
  destruct (SFleb _ _); [discriminate | auto].
Qed.

(** A run of the Create handler past validation: one identifier and one
    clock reading are drawn, the new order goes to the store's Create, and
    the reply follows the store's answer, the order being converted as
    the store left it. *)
Lemma createOrder_run {St} (st : store.OrderStore St) (w : World St)
    (req : orderv1.CreateOrderRequest.t) after err s :
  createOrderHandler_validate req = None ->
  let order := newOrder req (entropy w (drawn w)) (clock w (ticks w)) in
  store.Create st order (db w) = ((after, err), s) ->
  exists w',
    createOrderHandler_Handle st req w
    = (match err with
       | Some e => Value (Fail (NewError CodeInternal (Some e)))
       | None => Value (Resp {| orderv1.CreateOrderResponse.Order := toProto after |})
       end, w')
    /\ calls w' = calls w ++ [CallCreate order]
    /\ db w' = s
    /\ entropy w' = entropy w /\ drawn w' = S (drawn w)
    /\ clock w' = clock w /\ ticks w' = S (ticks w).
Proof.
  intros Hv order Hc.
  unfold createOrderHandler_Handle. rewrite Hv.
  unfold bind, uuid_New, time_Now, store_Create. simpl.
  fold order. rewrite Hc.
  destruct err as [e |]; simpl; eexists; (split; [reflexivity |]);
    simpl; repeat split.
Qed.

(** Every order the Create handler hands to the store has a non-empty
    user_id and item, an amount that is not less than or equal to zero,
    the status NEW and a non-empty id. *)
Lemma createOrder_stored_order {St} (st : store.OrderStore St) (w : World St)
    (req : orderv1.CreateOrderRequest.t) (order : entity.Order) :
  In (CallCreate order) (newCalls w (createOrderHandler_Handle st req w)) ->
  entity.UserID order <> "" /\ entity.Item order <> ""
  /\ SFleb (entity.Amount order) float64_zero = false
  /\ entity.Status order = entity.OrderStatusNew
  /\ entity.ID order <> "".
Proof.
  destruct (createOrderHandler_validate req) eqn:Hv.
  - unfold createOrderHandler_Handle. rewrite Hv. unfold ret.
    rewrite newCalls_same. intros [].
  - destruct (store.Create st (newOrder req (entropy w (drawn w)) (clock w (ticks w)))
                (db w)) as [[after err] s] eqn:Hc.
    destruct (createOrder_run st w req after err s Hv Hc) as [w' [E [Hcalls _]]].
    rewrite E, (newCalls_one _ _ _ _ Hcalls).
    intros [H | []]. injection H as <-.
    apply createOrder_validate_passed in Hv. destruct Hv as [Hu [Hi Ha]].
    simpl. repeat split; auto. apply uuid_facts.String_nonempty.
Qed.

(** C2, as amended. A CreateOrder request with non-empty user_id and item
    and a strictly positive amount, when the store's Create succeeds and
    leaves the order it was given as it was, is answered with the wire
    form of the very order passed to Create: its id is non-empty, its
    user_id, item and amount are the request's, its status is NEW and its
    created_at is populated (the clock reading in UTC). When the generator
    of identifiers does not repeat itself, the same request made again is
    answered with an order of a different id. *)
Theorem createOrder_valid_request {St} (st : store.OrderStore St) (w : World St)
    (req : orderv1.CreateOrderRequest.t) :
  orderv1.CreateOrderRequest.UserId req <> "" ->
  orderv1.CreateOrderRequest.Item req <> "" ->
  SFltb float64_zero (orderv1.CreateOrderRequest.Amount req) = true ->
  let order := newOrder req (entropy w (drawn w)) (clock w (ticks w)) in
  fst (store.Create st order (db w)) = (order, None) ->
  exists w',
    createOrderHandler_Handle st req w
      = (Value (Resp {| orderv1.CreateOrderResponse.Order := toProto order |}), w')
    /\ newCalls w (createOrderHandler_Handle st req w) = [CallCreate order]
    /\ orderv1.Id (toProto order) <> ""
    /\ orderv1.UserId (toProto order) = orderv1.CreateOrderRequest.UserId req
    /\ orderv1.Item (toProto order) = orderv1.CreateOrderRequest.Item req
    /\ orderv1.Amount (toProto order) = orderv1.CreateOrderRequest.Amount req
    /\ orderv1.Status (toProto order) = "NEW"
    /\ orderv1.CreatedAt (toProto order) <> ""
    /\ orderv1.CreatedAt (toProto order)
       = time.FormatRFC3339 (time.UTC (clock w (ticks w)))
    /\ (entropy w (S (drawn w)) <> entropy w (drawn w) ->
        let again := newOrder req (entropy w' (drawn w')) (clock w' (ticks w')) in
        fst (store.Create st again (db w')) = (again, None) ->
        exists w'',
          createOrderHandler_Handle st req w'
            = (Value (Resp {| orderv1.CreateOrderResponse.Order := toProto again |}), w'')
          /\ orderv1.Id (toProto again) <> orderv1.Id (toProto order)).
Proof.
  intros Hu Hi Ha order Hc.
  assert (Hv : createOrderHandler_validate req = None)
    by (apply createOrder_validate_valid; auto using float64_positive_not_le_zero).
  destruct (store.Create st order (db w)) as [[after err] s] eqn:E1.
  simpl in Hc. injection Hc as -> ->.
  destruct (createOrder_run st w req order None s Hv E1)
    as [w' [R1 [Hcalls [_ [Hent [Hdr _]]]]]].
  exists w'. split; [exact R1 |].
  split; [rewrite R1; now apply newCalls_one |].
  split; [apply uuid_facts.String_nonempty |].
  do 4 (split; [reflexivity |]).
  split; [apply time_facts.Format_nonempty |].
  split; [reflexivity |].
  intros Hfresh again Hc2.
  destruct (store.Create st again (db w')) as [[after2 err2] s2] eqn:E2.
  simpl in Hc2. injection Hc2 as -> ->.
  destruct (createOrder_run st w' req again None s2 Hv E2) as [w'' [R2 _]].
  exists w''. split; [exact R2 |].
  simpl. intros Heq. apply uuid_facts.String_inj in Heq.
  rewrite Hent, Hdr in Heq. exact (Hfresh Heq).
Qed.

Lemma createOrder_valid_request_witness :
  let req := orderv1.CreateOrderRequest.mk "user-123" "Test Item" samples.amount_99_99 in
  let st := store.Mock store.emptyMock in
  let order := newOrder req (samples.uuids 0) (samples.wallclock 0) in
  SFltb float64_zero (orderv1.CreateOrderRequest.Amount req) = true
  /\ fst (store.Create st order tt) = (order, None)
  /\ samples.uuids 1 <> samples.uuids 0
  /\ exists w',
       createOrderHandler_Handle st req samples.world
       = (Value (Resp {| orderv1.CreateOrderResponse.Order := toProto order |}), w')
       /\ exists w'' again,
            createOrderHandler_Handle st req w'
            = (Value (Resp {| orderv1.CreateOrderResponse.Order := again |}), w'')
            /\ orderv1.Id again <> orderv1.Id (toProto order).
Proof.
  split; [reflexivity |]. split; [reflexivity |]. split; [discriminate |].
  destruct (createOrder_valid_request (store.Mock store.emptyMock) samples.world
              (orderv1.CreateOrderRequest.mk "user-123" "Test Item" samples.amount_99_99)
              ltac:(discriminate) ltac:(discriminate) eq_refl eq_refl)
    as [w' [H [_ [_ [_ [_ [_ [_ [_ [_ Hagain]]]]]]]]]].
  exists w'. split; [exact H |].
  destruct (Hagain ltac:(discriminate) eq_refl) as [w'' [H2 Hid]].
  exists w''. eexists. split; [exact H2 | exact Hid].
Defined.

(** C2 as first stated fails: a store whose Create succeeds after writing
    an id and a status of its own through the pointer it was given makes
    the handler return what the store wrote, since the order is converted
    after the call: the status is not NEW and the id is not the one the
    handler generated. *)
Lemma createOrder_store_overwrites :
  let req := orderv1.CreateOrderRequest.mk "user-123" "Test Item" samples.amount_99_99 in
  let st := store.Mock samples.assigningMock in
  let order := newOrder req (samples.uuids 0) (samples.wallclock 0) in
  let run := createOrderHandler_Handle st req samples.world in
  SFltb float64_zero (orderv1.CreateOrderRequest.Amount req) = true
  /\ snd (fst (store.Create st order tt)) = None
  /\ newCalls samples.world run = [CallCreate order]
  /\ (exists r, fst run = Value (Resp r)
                /\ orderv1.Status (orderv1.CreateOrderResponse.Order r) = "FINISHED"
                /\ orderv1.Status (orderv1.CreateOrderResponse.Order r) <> "NEW"
                /\ orderv1.Id (orderv1.CreateOrderResponse.Order r) = "assigned-by-store"
                /\ orderv1.Id (orderv1.CreateOrderResponse.Order r) <> entity.ID order)
  /\ fst run <> Value (Resp {| orderv1.CreateOrderResponse.Order := toProto order |}).
Proof.
  split; [reflexivity |]. split; [reflexivity |]. split; [reflexivity |].
  split.
  - eexists. split; [reflexivity |]. simpl.
    split; [reflexivity |]. split; [discriminate |].
    split; [reflexivity | vm_compute; discriminate].
  - vm_compute. discriminate.
Qed.

(** C7 at a request whose amount is not a number: validation lets it
    through, since NaN is not less than or equal to zero, and the order
    handed to the store's Create has an amount that is not greater than
    zero. *)
Theorem createOrder_nan_amount_stored :
  let req := orderv1.CreateOrderRequest.mk "user-123" "Test Item" S754_nan in
  let run := createOrderHandler_Handle (store.Mock store.emptyMock) req samples.world in
  let order := newOrder req (samples.uuids 0) (samples.wallclock 0) in
  createOrderHandler_validate req = None
  /\ newCalls samples.world run = [CallCreate order]
  /\ fst run = Value (Resp {| orderv1.CreateOrderResponse.Order := toProto order |})
  /\ entity.Amount order = S754_nan
  /\ SFltb float64_zero (entity.Amount order) = false.
Proof. repeat split. Qed.

(** ** Entity to wire conversion *)

(** C6, as amended. The conversion is a function of the entity alone; it
    copies id, user_id, item and amount, renders the status as its string
    name, and renders created_at by the RFC 3339 layout in the time zone
    attached to the entity's created_at: the rendering ends in Z exactly
    when that zone is at offset zero, and for such a value it is the
    rendering of the value in UTC; 2024-01-15 10:30:00 UTC renders as
    "2024-01-15T10:30:00Z". *)
Theorem entityToProto_fields (e : entity.Order) :
  entityToProto (Some e) = Value (toProto e)
  /\ orderv1.Id (toProto e) = entity.ID e
  /\ orderv1.UserId (toProto e) = entity.UserID e
  /\ orderv1.Item (toProto e) = entity.Item e
  /\ orderv1.Amount (toProto e) = entity.Amount e
  /\ orderv1.Status (toProto e) = entity.Status e
  /\ (entity.Status e = entity.OrderStatusNew -> orderv1.Status (toProto e) = "NEW")
  /\ (entity.Status e = entity.OrderStatusInProgress ->
      orderv1.Status (toProto e) = "IN_PROGRESS")
  /\ (entity.Status e = entity.OrderStatusFinished ->
      orderv1.Status (toProto e) = "FINISHED")
  /\ orderv1.CreatedAt (toProto e) = time.FormatRFC3339 (entity.CreatedAt e)
  /\ (last (list_ascii_of_string (orderv1.CreatedAt (toProto e))) " "%char = "Z"%char
      <-> time.offset (entity.CreatedAt e) = 0)
  /\ (time.offset (entity.CreatedAt e) = 0 ->
      orderv1.CreatedAt (toProto e)
      = time.FormatRFC3339 (time.UTC (entity.CreatedAt e)))
  /\ (entity.CreatedAt e = time.Date 2024 1 15 10 30 0 0 0 ->
      orderv1.CreatedAt (toProto e) = "2024-01-15T10:30:00Z").
Proof.
  do 6 (split; [reflexivity |]).
  do 3 (split; [intros H; exact H |]).
  split; [reflexivity |].
  split; [| split].
  - simpl. unfold time.FormatRFC3339.
    rewrite list_ascii_of_string_of_list_ascii.
    apply time_facts.Format_Z_iff.
  - intros H. simpl. symmetry. now apply time_facts.Format_UTC.
  - intros H. simpl. rewrite H. vm_compute. reflexivity.
Qed.

Lemma entityToProto_fields_witness :
  entity.Status samples.order1 = entity.OrderStatusNew
  /\ time.offset (entity.CreatedAt samples.order1) = 0
  /\ entity.CreatedAt samples.order1 = time.Date 2024 1 15 10 30 0 0 0
  /\ orderv1.Status (toProto samples.order1) = "NEW"
  /\ orderv1.CreatedAt (toProto samples.order1) = "2024-01-15T10:30:00Z".
Proof.
  split; [reflexivity |]. split; [reflexivity |]. split; [reflexivity |].
  destruct (entityToProto_fields samples.order1)
    as [_ [_ [_ [_ [_ [_ [Hnew [_ [_ [_ [_ [_ Hex]]]]]]]]]]]].
  split; [exact (Hnew eq_refl) | exact (Hex eq_refl)].
Defined.

(** C6 as first stated fails: an entity whose created_at is attached to a
    zone three hours east of UTC is rendered in that zone, with a numeric
    offset, and not as the UTC rendering of the same instant. *)
Lemma entityToProto_keeps_zone :
  time.unix (entity.CreatedAt samples.order_east)
  = time.unix (time.Date 2024 1 15 10 30 0 0 0)
  /\ orderv1.CreatedAt (toProto samples.order_east) = "2024-01-15T13:30:00+03:00"
  /\ time.FormatRFC3339 (time.UTC (entity.CreatedAt samples.order_east))
     = "2024-01-15T10:30:00Z"
  /\ orderv1.CreatedAt (toProto samples.order_east)
     <> time.FormatRFC3339 (time.UTC (entity.CreatedAt samples.order_east)).
Proof.
  split; [reflexivity |].
  split; [vm_compute; reflexivity |].
  split; [vm_compute; reflexivity |].
  vm_compute. discriminate.
Qed.

(** C10. The conversion drops the sub-second part of created_at: the
    rendering is that of the time truncated to the second and has no
    decimal point, so two orders whose creation times differ only below
    the second have the same created_at on the wire. *)
Theorem entityToProto_truncates_subsecond (e1 e2 : entity.Order) :
  time.unix (entity.CreatedAt e1) = time.unix (entity.CreatedAt e2) ->
  time.offset (entity.CreatedAt e1) = time.offset (entity.CreatedAt e2) ->
  orderv1.CreatedAt (toProto e1) = orderv1.CreatedAt (toProto e2)
  /\ orderv1.CreatedAt (toProto e1)
     = time.FormatRFC3339 (time.TruncateSecond (entity.CreatedAt e1))
  /\ ~ In "."%char (list_ascii_of_string (orderv1.CreatedAt (toProto e1))).
Proof.
  intros Hu Ho. split; [| split].
  - simpl. unfold time.FormatRFC3339, time.FormatRFC3339_chars, time.appendDateTime.
    now rewrite Hu, Ho.
  - apply time_facts.Format_truncates.
  - simpl. unfold time.FormatRFC3339.
    rewrite list_ascii_of_string_of_list_ascii.
    apply time_facts.Format_no_fraction.
Qed.

Lemma entityToProto_truncates_subsecond_witness :
  let e1 := newOrder (orderv1.CreateOrderRequest.mk "user-123" "Test Item"
                        samples.amount_99_99)
              (samples.uuids 0) (time.mkTime 1705314600 123456789 0) in
  let e2 := newOrder (orderv1.CreateOrderRequest.mk "user-123" "Test Item"
                        samples.amount_99_99)
              (samples.uuids 1) (time.mkTime 1705314600 987000000 0) in
  time.nsec (entity.CreatedAt e1) <> time.nsec (entity.CreatedAt e2)
  /\ time.unix (entity.CreatedAt e1) = time.unix (entity.CreatedAt e2)
  /\ time.offset (entity.CreatedAt e1) = time.offset (entity.CreatedAt e2)
  /\ orderv1.CreatedAt (toProto e1) = orderv1.CreatedAt (toProto e2).
Proof.
  split; [discriminate |]. split; [reflexivity |]. split; [reflexivity |].
  apply (entityToProto_truncates_subsecond
           (newOrder (orderv1.CreateOrderRequest.mk "user-123" "Test Item"
                        samples.amount_99_99)
              (samples.uuids 0) (time.mkTime 1705314600 123456789 0))
           (newOrder (orderv1.CreateOrderRequest.mk "user-123" "Test Item"
                        samples.amount_99_99)
              (samples.uuids 1) (time.mkTime 1705314600 987000000 0)));
    reflexivity.
Defined.

(** * Further properties of the handlers *)

Lemma listOrders_run {St} (st : store.OrderStore St) (w : World St)
    (req : orderv1.ListOrdersRequest.t) os err s :
  store.List st (db w) = ((os, err), s) ->
  listOrdersHandler_Handle st req w =
  let w' := logged w CallList s in
  match err with
  | Some e => (Value (Fail (NewError CodeInternal (Some e))), w')
  | None =>
      match convertAll os with
      | Value ps => (Value (Resp {| orderv1.ListOrdersResponse.Orders := ps |}), w')
      | Panic => (Panic, w')
      end
  end.
Proof.
  intros H. unfold listOrdersHandler_Handle, listOrdersHandler_validate, bind, store_List.
  rewrite H. simpl. destruct err as [e |]; [reflexivity |].
  unfold bind, lift, ret. destruct (convertAll os); reflexivity.
Qed.

Lemma convertAll_panics (os : list (option entity.Order)) :
  convertAll os = Panic <-> In None os.
Proof.
  induction os as [| o os IH]; simpl.
  - split; [discriminate | intros []].
  - destruct o as [o |]; simpl.
    + destruct (convertAll os) eqn:E.
      * split; [discriminate |]. intros [H | H]; [discriminate |].
        apply IH in H. discriminate.
      * split; [| reflexivity]. intros _. right. now apply IH.
    + split; [now left | reflexivity].
Qed.

(** The store calls of each handler: Create makes one Create call with
    the new order when validation passes and none otherwise; Get and
    CheckOwner make one Get call with the requested id when validation
    passes and none otherwise; List always makes one List call. No handler
    makes a second call or a call of another kind. *)
Theorem handlers_store_calls {St} (st : store.OrderStore St) (w : World St) :
  (forall req,
     newCalls w (createOrderHandler_Handle st req w)
     = match createOrderHandler_validate req with
       | Some _ => []
       | None => [CallCreate (newOrder req (entropy w (drawn w)) (clock w (ticks w)))]
       end)
  /\ (forall req,
        newCalls w (getOrderHandler_Handle st req w)
        = if String.eqb (orderv1.GetOrderRequest.Id req) "" then []
          else [CallGet (orderv1.GetOrderRequest.Id req)])
  /\ (forall req, newCalls w (listOrdersHandler_Handle st req w) = [CallList])
  /\ (forall req,
        newCalls w (checkOrderOwnerHandler_Handle st req w)
        = if String.eqb (orderv1.CheckOrderOwnerRequest.OrderId req) ""
             || String.eqb (orderv1.CheckOrderOwnerRequest.UserId req) ""
          then []
          else [CallGet (orderv1.CheckOrderOwnerRequest.OrderId req)]).
Proof.
  split; [| split; [| split]].
  - intros req. destruct (createOrderHandler_validate req) eqn:Hv.
    + unfold createOrderHandler_Handle. rewrite Hv. apply newCalls_same.
    + destruct (store.Create st (newOrder req (entropy w (drawn w)) (clock w (ticks w)))
                  (db w)) as [[after err] s] eqn:Hc.
      destruct (createOrder_run st w req after err s Hv Hc) as [w' [E [Hcalls _]]].
      rewrite E. now apply newCalls_one.
  - intros req.
    destruct (String.eqb_spec (orderv1.GetOrderRequest.Id req) "") as [Hid | Hid].
    + unfold getOrderHandler_Handle, getOrderHandler_validate. rewrite Hid. simpl.
      apply newCalls_same.
    + destruct (store.Get st (orderv1.GetOrderRequest.Id req) (db w))
        as [[order err] s] eqn:Hget.
      rewrite (getOrder_run st w req order err s Hid Hget).
      destruct err as [e |]; [| destruct order]; simpl;
        apply newCalls_one; reflexivity.
  - intros req.
    destruct (store.List st (db w)) as [[os err] s] eqn:Hl.
    rewrite (listOrders_run st w req os err s Hl).
    destruct err as [e |]; [| destruct (convertAll os)]; simpl;
      apply newCalls_one; reflexivity.
  - intros req.
    destruct (String.eqb_spec (orderv1.CheckOrderOwnerRequest.OrderId req) "")
      as [Hid | Hid].
    { unfold checkOrderOwnerHandler_Handle, checkOrderOwnerHandler_validate.
      rewrite Hid. simpl. apply newCalls_same. }
    destruct (String.eqb_spec (orderv1.CheckOrderOwnerRequest.UserId req) "")
      as [Hu | Hu].
    { unfold checkOrderOwnerHandler_Handle, checkOrderOwnerHandler_validate.
      rewrite Hu. destruct (String.eqb _ ""); simpl; apply newCalls_same. }
    simpl.
    destruct (store.Get st (orderv1.CheckOrderOwnerRequest.OrderId req) (db w))
      as [[order err] s] eqn:Hget.
    rewrite (checkOrderOwner_run st w req order err s Hid Hu Hget).
    destruct err as [e |]; [| destruct order as [o |]]; simpl;
      try destruct (String.eqb (entity.UserID o) _);
      apply newCalls_one; reflexivity.
Qed.

(** The error codes of each operation: Create answers with no other error
    than invalid-argument or internal and never panics; Get never answers
    with permission-denied; List answers with no other error than
    internal. *)
Theorem handlers_error_codes {St} (st : store.OrderStore St) (w : World St) :
  (forall req,
     fst (createOrderHandler_Handle st req w) <> Panic
     /\ forall e, fst (createOrderHandler_Handle st req w) = Value (Fail e) ->
                  code e = CodeInvalidArgument \/ code e = CodeInternal)
  /\ (forall req e,
        fst (getOrderHandler_Handle st req w) = Value (Fail e) ->
        code e = CodeInvalidArgument \/ code e = CodeNotFound
        \/ code e = CodeInternal)
  /\ (forall req e,
        fst (listOrdersHandler_Handle st req w) = Value (Fail e) ->
        code e = CodeInternal).
Proof.
  split; [| split].
  - intros req. destruct (createOrderHandler_validate req) as [e0 |] eqn:Hv.
    + assert (He0 : e0 = NewError CodeInvalidArgument None).
      { rewrite createOrder_validate_spec in Hv.
        destruct (_ || _); congruence. }
      unfold createOrderHandler_Handle. rewrite Hv. simpl.
      split; [discriminate |]. intros e H. injection H as <-. subst. now left.
    + destruct (store.Create st (newOrder req (entropy w (drawn w)) (clock w (ticks w)))
                  (db w)) as [[after err] s] eqn:Hc.
      destruct (createOrder_run st w req after err s Hv Hc) as [w' [E _]].
      rewrite E. destruct err as [e1 |]; simpl.
      * split; [discriminate |]. intros e H. injection H as <-. now right.
      * split; discriminate.
  - intros req e.
    destruct (String.eqb_spec (orderv1.GetOrderRequest.Id req) "") as [Hid | Hid].
    + unfold getOrderHandler_Handle, getOrderHandler_validate. rewrite Hid. simpl.
      intros H. injection H as <-. now left.
    + destruct (store.Get st (orderv1.GetOrderRequest.Id req) (db w))
        as [[order err] s] eqn:Hget.
      rewrite (getOrder_run st w req order err s Hid Hget).
      destruct err as [e1 |]; [| destruct order]; simpl; try discriminate.
      intros H. injection H as <-. simpl.
      destruct (errors.Is e1 store.ErrOrderNotFound); auto.
  - intros req e.
    destruct (store.List st (db w)) as [[os err] s] eqn:Hl.
    rewrite (listOrders_run st w req os err s Hl).
    destruct err as [e1 |]; [| destruct (convertAll os)]; simpl; try discriminate.
    intros H. now injection H as <-.
Qed.

(** When the store's Create fails on a valid request, the handler
    answers with the internal error wrapping the store's error and returns
    no order, after exactly one Create call with the new order, one
    identifier and one clock reading drawn. *)
Theorem createOrder_store_failure {St} (st : store.OrderStore St) (w : World St)
    (req : orderv1.CreateOrderRequest.t) (e : error) :
  createOrderHandler_validate req = None ->
  let order := newOrder req (entropy w (drawn w)) (clock w (ticks w)) in
  snd (fst (store.Create st order (db w))) = Some e ->
  fst (createOrderHandler_Handle st req w)
    = Value (Fail (NewError CodeInternal (Some e)))
  /\ newCalls w (createOrderHandler_Handle st req w) = [CallCreate order]
  /\ db (snd (createOrderHandler_Handle st req w))
     = snd (store.Create st order (db w))
  /\ drawn (snd (createOrderHandler_Handle st req w)) = S (drawn w)
  /\ ticks (snd (createOrderHandler_Handle st req w)) = S (ticks w).
Proof.
  intros Hv order Hc.
  destruct (store.Create st order (db w)) as [[after err] s] eqn:E1.
  simpl in Hc. subst err.
  destruct (createOrder_run st w req after (Some e) s Hv E1)
    as [w' [R [Hcalls [Hdb [_ [Hdr [_ Htk]]]]]]].
  rewrite R. simpl. repeat split; auto. now apply newCalls_one.
Qed.

Lemma createOrder_store_failure_witness :
  let req := orderv1.CreateOrderRequest.mk "user-123" "Test Item" samples.amount_99_99 in
  let e := errors.New "database error" in
  let st := store.Mock {| store.CreateFunc := Some (fun order => (order, Some e));
                          store.GetFunc := None; store.ListFunc := None;
                          store.CloseFunc := None |} in
  createOrderHandler_validate req = None
  /\ fst (createOrderHandler_Handle st req samples.world)
     = Value (Fail (NewError CodeInternal (Some e))).
Proof.
  split; [reflexivity |].
  apply (createOrder_store_failure
           (store.Mock {| store.CreateFunc :=
                            Some (fun order => (order, Some (errors.New "database error")));
                          store.GetFunc := None; store.ListFunc := None;
                          store.CloseFunc := None |})
           samples.world
           (orderv1.CreateOrderRequest.mk "user-123" "Test Item" samples.amount_99_99)
           (errors.New "database error") eq_refl eq_refl).
Defined.

(** The invalid-argument answer is kept for validation: Create answers
    with it exactly when user_id or item is empty or the amount is less
    than or equal to zero, Get exactly when the id is empty, CheckOwner
    exactly when order_id or user_id is empty, and List never. *)
Theorem invalid_argument_iff {St} (st : store.OrderStore St) (w : World St) :
  (forall req,
     (exists e, fst (createOrderHandler_Handle st req w) = Value (Fail e)
                /\ code e = CodeInvalidArgument)
     <-> (orderv1.CreateOrderRequest.UserId req = ""
          \/ orderv1.CreateOrderRequest.Item req = ""
          \/ SFleb (orderv1.CreateOrderRequest.Amount req) float64_zero = true))
  /\ (forall req,
        (exists e, fst (getOrderHandler_Handle st req w) = Value (Fail e)
                   /\ code e = CodeInvalidArgument)
        <-> orderv1.GetOrderRequest.Id req = "")
  /\ (forall req,
        (exists e, fst (checkOrderOwnerHandler_Handle st req w) = Value (Fail e)
                   /\ code e = CodeInvalidArgument)
        <-> (orderv1.CheckOrderOwnerRequest.OrderId req = ""
             \/ orderv1.CheckOrderOwnerRequest.UserId req = ""))
  /\ (forall req e,
        fst (listOrdersHandler_Handle st req w) = Value (Fail e) ->
        code e <> CodeInvalidArgument).
Proof.
  split; [| split; [| split]].
  - intros req. split.
    + intros [e [H Hc]].
      destruct (createOrderHandler_validate req) as [e0 |] eqn:Hv.
      * rewrite createOrder_validate_spec in Hv.
        destruct (String.eqb_spec (orderv1.CreateOrderRequest.UserId req) "");
          [now left |].
        destruct (String.eqb_spec (orderv1.CreateOrderRequest.Item req) "");
          [now right; left |].
        destruct (SFleb _ _); [now right; right | discriminate].
      * exfalso.
        destruct (store.Create st (newOrder req (entropy w (drawn w)) (clock w (ticks w)))
                    (db w)) as [[after err] s] eqn:Hcr.
        destruct (createOrder_run st w req after err s Hv Hcr) as [w' [E _]].
        rewrite E in H. destruct err; simpl in H; [| discriminate].
        injection H as <-. discriminate Hc.
    + intros H. exists (NewError CodeInvalidArgument None).
      split; [| reflexivity].
      unfold createOrderHandler_Handle. rewrite createOrder_validate_spec.
      destruct H as [H | [H | H]]; rewrite H; simpl;
        rewrite ?orb_true_r; reflexivity.
  - intros req. split.
    + intros [e [H Hc]].
      destruct (String.eqb_spec (orderv1.GetOrderRequest.Id req) "") as [Hid | Hid];
        [exact Hid | exfalso].
      destruct (store.Get st (orderv1.GetOrderRequest.Id req) (db w))
        as [[order err] s] eqn:Hget.
      rewrite (getOrder_run st w req order err s Hid Hget) in H.
      destruct err as [e1 |]; [| destruct order]; simpl in H; try discriminate.
      injection H as <-. simpl in Hc.
      destruct (errors.Is e1 store.ErrOrderNotFound); discriminate.
    + intros Hid. exists (NewError CodeInvalidArgument None).
      split; [| reflexivity].
      unfold getOrderHandler_Handle, getOrderHandler_validate. now rewrite Hid.
  - intros req. split.
    + intros [e [H Hc]].
      destruct (String.eqb_spec (orderv1.CheckOrderOwnerRequest.OrderId req) "")
        as [Hid | Hid]; [now left |].
      destruct (String.eqb_spec (orderv1.CheckOrderOwnerRequest.UserId req) "")
        as [Hu | Hu]; [now right | exfalso].
      destruct (store.Get st (orderv1.CheckOrderOwnerRequest.OrderId req) (db w))
        as [[order err] s] eqn:Hget.
      rewrite (checkOrderOwner_run st w req order err s Hid Hu Hget) in H.
      destruct err as [e1 |]; [| destruct order as [o |]]; simpl in H.
      * injection H as <-. simpl in Hc.
        destruct (errors.Is e1 store.ErrOrderNotFound); discriminate.
      * destruct (String.eqb (entity.UserID o) _); simpl in H; [discriminate |].
        injection H as <-. discriminate.
      * discriminate.
    + intros H. exists (NewError CodeInvalidArgument None).
      split; [| reflexivity].
      unfold checkOrderOwnerHandler_Handle, checkOrderOwnerHandler_validate.
      destruct H as [H | H]; rewrite H; simpl; [reflexivity |].
      destruct (String.eqb _ ""); reflexivity.
  - intros req e H Hc.
    destruct (store.List st (db w)) as [[os err] s] eqn:Hl.
    rewrite (listOrders_run st w req os err s Hl) in H.
    destruct err as [e1 |]; [| destruct (convertAll os)]; simpl in H;
      try discriminate.
    injection H as <-. discriminate.
Qed.

(** The List handler panics exactly when the store's List returns,
    without error, a slice holding a nil order; a slice returned together
    with an error is not looked at. *)
Theorem listOrders_panics_iff {St} (st : store.OrderStore St) (w : World St)
    (req : orderv1.ListOrdersRequest.t) :
  fst (listOrdersHandler_Handle st req w) = Panic
  <-> snd (fst (store.List st (db w))) = None
      /\ In None (fst (fst (store.List st (db w)))).
Proof.
  destruct (store.List st (db w)) as [[os err] s] eqn:Hl.
  rewrite (listOrders_run st w req os err s Hl). simpl.
  destruct err as [e |]; simpl.
  - split; [discriminate | intros [H _]; discriminate].
  - rewrite <- convertAll_panics.
    destruct (convertAll os); simpl; split; try discriminate; auto.
    + intros [_ H]. discriminate.
Qed.

(** CheckOwner and Get of the same order id, run in the same world, reach
    the store in the same way and agree: CheckOwner answers with Get's
    error when Get fails, panics exactly when Get panics, and succeeds
    exactly when Get returns an order whose user_id is the given one,
    answering permission-denied for an order of another user. *)
Theorem checkOrderOwner_agrees_with_getOrder {St} (st : store.OrderStore St)
    (w : World St) (id user : string) :
  id <> "" -> user <> "" ->
  let g := getOrderHandler_Handle st (orderv1.GetOrderRequest.mk id) w in
  let c := checkOrderOwnerHandler_Handle st
             (orderv1.CheckOrderOwnerRequest.mk id user) w in
  snd g = snd c
  /\ (forall e, fst g = Value (Fail e) -> fst c = Value (Fail e))
  /\ (fst g = Panic <-> fst c = Panic)
  /\ (fst c = Value (Resp orderv1.CheckOrderOwnerResponse.mk)
      <-> exists r, fst g = Value (Resp r)
                    /\ orderv1.UserId (orderv1.GetOrderResponse.Order r) = user)
  /\ (forall r, fst g = Value (Resp r) ->
                orderv1.UserId (orderv1.GetOrderResponse.Order r) <> user ->
                fst c = Value (Fail (NewError CodePermissionDenied
                          (Some (errors.New "order does not belong to user"))))).
Proof.
  intros Hid Hu g c.
  destruct (store.Get st id (db w)) as [[order err] s] eqn:Hget.
  assert (G := getOrder_run st w (orderv1.GetOrderRequest.mk id) order err s Hid Hget).
  assert (C := checkOrderOwner_run st w (orderv1.CheckOrderOwnerRequest.mk id user)
                 order err s Hid Hu Hget).
  subst g c. rewrite G, C. simpl.
  destruct err as [e |]; [| destruct order as [o |]]; simpl.
  - split; [reflexivity |].
    split; [intros e0 H; injection H as <-; reflexivity |].
    split; [split; intros H; discriminate H |].
    split; [split; [intros H; discriminate H | intros [r [H _]]; discriminate H] |].
    intros r H _. discriminate H.
  - destruct (String.eqb_spec (entity.UserID o) user) as [E | E]; simpl.
    + split; [reflexivity |].
      split; [intros e0 H; discriminate H |].
      split; [split; intros H; discriminate H |].
      split.
      * split; [| reflexivity].
        intros _. eexists. split; [reflexivity | exact E].
      * intros r H Hne. injection H as <-. simpl in Hne. contradiction.
    + split; [reflexivity |].
      split; [intros e0 H; discriminate H |].
      split; [split; intros H; discriminate H |].
      split.
      * split; [intros H; discriminate H |].
        intros [r [H Hr]]. injection H as <-. simpl in Hr. contradiction.
      * intros r H Hne. reflexivity.
  - split; [reflexivity |].
    split; [intros e0 H; discriminate H |].
    split; [split; reflexivity |].
    split; [split; [intros H; discriminate H | intros [r [H _]]; discriminate H] |].
    intros r H _. discriminate H.
Qed.

Lemma checkOrderOwner_agrees_with_getOrder_witness :
  let st := store.Mock (samples.getMock (Some samples.order1, None)) in
  "order-123" <> "" /\ "user-456" <> ""
  /\ (exists r, fst (getOrderHandler_Handle st (orderv1.GetOrderRequest.mk "order-123")
                       samples.world) = Value (Resp r)
                /\ orderv1.UserId (orderv1.GetOrderResponse.Order r) = "user-456")
  /\ fst (checkOrderOwnerHandler_Handle st
            (orderv1.CheckOrderOwnerRequest.mk "order-123" "user-456") samples.world)
     = Value (Resp orderv1.CheckOrderOwnerResponse.mk).
Proof.
  split; [discriminate |]. split; [discriminate |].
  assert (G : exists r,
             fst (getOrderHandler_Handle
                    (store.Mock (samples.getMock (Some samples.order1, None)))
                    (orderv1.GetOrderRequest.mk "order-123") samples.world)
             = Value (Resp r)
             /\ orderv1.UserId (orderv1.GetOrderResponse.Order r) = "user-456")
    by (eexists; split; reflexivity).
  split; [exact G |].
  destruct (checkOrderOwner_agrees_with_getOrder
              (store.Mock (samples.getMock (Some samples.order1, None)))
              samples.world "order-123" "user-456"
              ltac:(discriminate) ltac:(discriminate)) as [_ [_ [_ [H _]]]].
  apply H. exact G.
Defined.

(** Every order the Create handler hands to the store carries the clock
    reading moved to UTC, whatever the time zone of the clock. When the
    store's Create succeeds and leaves created_at as it was given, the
    order returned has the RFC 3339 rendering of that reading in UTC as
    its created_at, ending in Z. *)
Theorem createOrder_created_at_utc {St} (st : store.OrderStore St) (w : World St)
    (req : orderv1.CreateOrderRequest.t) :
  (forall order,
     In (CallCreate order) (newCalls w (createOrderHandler_Handle st req w)) ->
     entity.CreatedAt order = time.UTC (clock w (ticks w))
     /\ time.offset (entity.CreatedAt order) = 0)
  /\ (forall r,
        fst (createOrderHandler_Handle st req w) = Value (Resp r) ->
        entity.CreatedAt
          (fst (fst (store.Create st
                       (newOrder req (entropy w (drawn w)) (clock w (ticks w)))
                       (db w))))
        = time.UTC (clock w (ticks w)) ->
        orderv1.CreatedAt (orderv1.CreateOrderResponse.Order r)
          = time.FormatRFC3339 (time.UTC (clock w (ticks w)))
        /\ last (list_ascii_of_string
                   (orderv1.CreatedAt (orderv1.CreateOrderResponse.Order r)))
                " "%char
           = "Z"%char).
Proof.
  destruct (createOrderHandler_validate req) as [e0 |] eqn:Hv.
  { unfold createOrderHandler_Handle. rewrite Hv. unfold ret. split.
    - rewrite newCalls_same. intros order [].
    - intros r H. discriminate H. }
  destruct (store.Create st (newOrder req (entropy w (drawn w)) (clock w (ticks w)))
              (db w)) as [[after err] s] eqn:Hc.
  destruct (createOrder_run st w req after err s Hv Hc) as [w' [E [Hcalls _]]].
  rewrite E. split.
  - rewrite (newCalls_one _ _ _ _ Hcalls).
    intros order [H | []]. injection H as <-. split; reflexivity.
  - intros r H Hat. simpl in H, Hat.
    destruct err; [discriminate H |]. injection H as <-. simpl.
    rewrite Hat. split; [reflexivity |].
    unfold time.FormatRFC3339. rewrite list_ascii_of_string_of_list_ascii.
    apply time_facts.Format_Z_iff. reflexivity.
Qed.

Lemma createOrder_created_at_utc_witness :
  let req := orderv1.CreateOrderRequest.mk "user-123" "Test Item" samples.amount_99_99 in
  let order := newOrder req (samples.uuids 0) (samples.wallclock 0) in
  time.offset (samples.wallclock 0) = 10800
  /\ fst (createOrderHandler_Handle (store.Mock store.emptyMock) req samples.world)
     = Value (Resp {| orderv1.CreateOrderResponse.Order := toProto order |})
  /\ orderv1.CreatedAt (toProto order)
     = time.FormatRFC3339 (time.UTC (samples.wallclock 0)).
Proof.
  split; [reflexivity |]. split; [reflexivity |].
  exact (proj1 (proj2 (createOrder_created_at_utc (store.Mock store.emptyMock)
                         samples.world
                         (orderv1.CreateOrderRequest.mk "user-123" "Test Item"
                            samples.amount_99_99))
                  _ eq_refl eq_refl)).
Defined.

(** The Create handler converts the order after the store's Create
    returned: on success the order returned is the wire form of the order
    as the store left it, while the call was made with the order as the
    handler built it. So the reply is the handler's own order exactly when
    the store changed nothing that the wire form shows. *)
Theorem createOrder_reply_after_store {St} (st : store.OrderStore St) (w : World St)
    (req : orderv1.CreateOrderRequest.t) (after : entity.Order) (s : St) :
  createOrderHandler_validate req = None ->
  let order := newOrder req (entropy w (drawn w)) (clock w (ticks w)) in
  store.Create st order (db w) = ((after, None), s) ->
  fst (createOrderHandler_Handle st req w)
    = Value (Resp {| orderv1.CreateOrderResponse.Order := toProto after |})
  /\ newCalls w (createOrderHandler_Handle st req w) = [CallCreate order]
  /\ (fst (createOrderHandler_Handle st req w)
        = Value (Resp {| orderv1.CreateOrderResponse.Order := toProto order |})
      <-> toProto after = toProto order).
Proof.
  intros Hv order Hc.
  destruct (createOrder_run st w req after None s Hv Hc) as [w' [E [Hcalls _]]].
  rewrite E. cbn [fst]. split; [reflexivity |].
  split; [now apply newCalls_one |].
  split.
  - intros H.
    exact (f_equal (fun x => match x with
                             | Value (Resp r) => orderv1.CreateOrderResponse.Order r
                             | _ => toProto order
                             end) H).
  - intros H. now rewrite H.
Qed.

Lemma createOrder_reply_after_store_witness :
  let req := orderv1.CreateOrderRequest.mk "user-123" "Test Item" samples.amount_99_99 in
  let order := newOrder req (samples.uuids 0) (samples.wallclock 0) in
  let after :=
    {| entity.ID := "assigned-by-store";
       entity.UserID := entity.UserID order;
       entity.Item := entity.Item order;
       entity.Amount := entity.Amount order;
       entity.Status := entity.OrderStatusFinished;
       entity.CreatedAt := entity.CreatedAt order |} in
  createOrderHandler_validate req = None
  /\ store.Create (store.Mock samples.assigningMock) order tt = ((after, None), tt)
  /\ fst (createOrderHandler_Handle (store.Mock samples.assigningMock) req samples.world)
     = Value (Resp {| orderv1.CreateOrderResponse.Order := toProto after |}).
Proof.
  split; [reflexivity |]. split; [reflexivity |].
  exact (proj1 (createOrder_reply_after_store (store.Mock samples.assigningMock)
                  samples.world
                  (orderv1.CreateOrderRequest.mk "user-123" "Test Item"
                     samples.amount_99_99)
                  _ tt eq_refl eq_refl)).
Defined.

Lemma String_canonical (u : uuid.UUID) :
  List.length u = 16%nat ->
  String.length (uuid.String u) = 36%nat
  /\ String.get 8 (uuid.String u) = Some "-"%char
  /\ String.get 13 (uuid.String u) = Some "-"%char
  /\ String.get 18 (uuid.String u) = Some "-"%char
  /\ String.get 23 (uuid.String u) = Some "-"%char.
Proof.
  intros H.
  do 16 (destruct u as [| ? u]; [discriminate H |]).
  destruct u; [| discriminate H].
  repeat split.
Qed.

(** The identifier of every order the Create handler hands to the store,
    drawn as a 16-byte UUID, is 36 characters long, dashes at positions 8,
    13, 18 and 23: it fills the id column of the schema, VARCHAR(36),
    exactly. *)
Theorem createOrder_id_fits_column {St} (st : store.OrderStore St) (w : World St)
    (req : orderv1.CreateOrderRequest.t) (order : entity.Order) :
  List.length (entropy w (drawn w)) = 16%nat ->
  In (CallCreate order) (newCalls w (createOrderHandler_Handle st req w)) ->
  String.length (entity.ID order) = 36%nat
  /\ String.get 8 (entity.ID order) = Some "-"%char
  /\ String.get 13 (entity.ID order) = Some "-"%char
  /\ String.get 18 (entity.ID order) = Some "-"%char
  /\ String.get 23 (entity.ID order) = Some "-"%char.
Proof.
  intros Hlen Hin.
  destruct (createOrderHandler_validate req) eqn:Hv.
  - unfold createOrderHandler_Handle in Hin. rewrite Hv in Hin. unfold ret in Hin.
    rewrite newCalls_same in Hin. destruct Hin.
  - destruct (store.Create st (newOrder req (entropy w (drawn w)) (clock w (ticks w)))
                (db w)) as [[after err] s] eqn:Hc.
    destruct (createOrder_run st w req after err s Hv Hc) as [w' [E [Hcalls _]]].
    rewrite E, (newCalls_one _ _ _ _ Hcalls) in Hin.
    destruct Hin as [H | []]. injection H as <-.
    simpl. now apply String_canonical.
Qed.

Lemma createOrder_id_fits_column_witness :
  let req := orderv1.CreateOrderRequest.mk "user-123" "Test Item" samples.amount_99_99 in
  let order := newOrder req (samples.uuids 0) (samples.wallclock 0) in
  List.length (entropy samples.world (drawn samples.world)) = 16%nat
  /\ In (CallCreate order)
        (newCalls samples.world
           (createOrderHandler_Handle (store.Mock store.emptyMock) req samples.world))
  /\ String.length (entity.ID order) = 36%nat.
Proof.
  split; [reflexivity |]. split; [left; reflexivity |].
  exact (proj1 (createOrder_id_fits_column (store.Mock store.emptyMock) samples.world
           (orderv1.CreateOrderRequest.mk "user-123" "Test Item" samples.amount_99_99)
           _ eq_refl (or_introl eq_refl))).
Defined.

(** * PostgresStore *)

Lemma postgres_Get_cases {Conn} (db : sqlx.DB Conn) (id : string) (c : Conn)
    row err c' :
  sqlx.GetContext db postgres.getQuery id postgres.zeroOrder c = ((row, err), c') ->
  store.Get (postgres.PostgresStore db) id c
  = match err with
    | Some e =>
        if errors.Is e sql.ErrNoRows then ((None, Some (store.ErrOrderNotFound : error)), c')
        else ((None, Some e), c')
    | None => ((Some row, None), c')
    end.
Proof. intros H. simpl. unfold postgres.Get. now rewrite H. Qed.

(** PostgresStore.Get returns an order exactly when it returns no error,
    so never a nil order with a nil error. An error of the database that
    is the variable sql.ErrNoRows, or wraps it, is replaced by the
    sentinel ErrOrderNotFound itself; any other error of the database is
    returned as it is, also an error made elsewhere with the text of
    sql.ErrNoRows; the row read is returned only when the database
    reported no error. *)
Theorem postgres_Get_outcomes {Conn} (db : sqlx.DB Conn) (id : string) (c : Conn) :
  let got := sqlx.GetContext db postgres.getQuery id postgres.zeroOrder c in
  let res := store.Get (postgres.PostgresStore db) id c in
  snd res = snd got
  /\ (fst (fst res) = None <-> snd (fst res) <> None)
  /\ (forall e, snd (fst got) = Some e -> errors.Is e sql.ErrNoRows = true ->
                fst res = (None, Some (store.ErrOrderNotFound : error)))
  /\ (forall e, snd (fst got) = Some e -> errors.Is e sql.ErrNoRows = false ->
                fst res = (None, Some e))
  /\ (forall msg, snd (fst got) = Some (errors.New msg) ->
                  fst res = (None, Some (errors.New msg)))
  /\ (snd (fst got) = None -> fst res = (Some (fst (fst got)), None)).
Proof.
  intros got res.
  destruct (sqlx.GetContext db postgres.getQuery id postgres.zeroOrder c)
    as [[row err] c'] eqn:E.
  subst got res. rewrite (postgres_Get_cases db id c row err c' E). simpl.
  destruct err as [e |].
  - destruct (errors.Is e sql.ErrNoRows) eqn:Hi; simpl.
    + split; [reflexivity |]. split; [split; [discriminate | reflexivity] |].
      split; [reflexivity |].
      split; [intros e0 H H0; injection H as <-; congruence |].
      split; [| discriminate].
      intros msg H. injection H as ->. discriminate Hi.
    + split; [reflexivity |]. split; [split; [discriminate | reflexivity] |].
      split; [intros e0 H H0; injection H as <-; congruence |].
      split; [intros e0 H _; now injection H as <- |].
      split; [| discriminate].
      intros msg H. now injection H as ->.
  - simpl. split; [reflexivity |].
    split; [split; [discriminate | intros H; now elim H] |].
    split; [discriminate |]. split; [discriminate |].
    split; [discriminate | reflexivity].
Qed.

(** Over a PostgresStore the Get and CheckOwner handlers never panic,
    whatever the database does. *)
Theorem postgres_handlers_never_panic {Conn} (db : sqlx.DB Conn) (w : World Conn) :
  (forall req, fst (getOrderHandler_Handle (postgres.PostgresStore db) req w) <> Panic)
  /\ (forall req,
        fst (checkOrderOwnerHandler_Handle (postgres.PostgresStore db) req w)
        <> Panic).
Proof.
  assert (N : forall id, fst (store.Get (postgres.PostgresStore db) id (orders.db w))
                         <> (None, None)).
  { intros id.
    destruct (sqlx.GetContext db postgres.getQuery id postgres.zeroOrder (orders.db w))
      as [[row err] c'] eqn:E.
    rewrite (postgres_Get_cases db id _ row err c' E).
    destruct err as [e |]; [destruct (errors.Is e sql.ErrNoRows) |]; discriminate. }
  split; intros req.
  - destruct (String.eqb_spec (orderv1.GetOrderRequest.Id req) "") as [Hid | Hid].
    + unfold getOrderHandler_Handle, getOrderHandler_validate. rewrite Hid. discriminate.
    + specialize (N (orderv1.GetOrderRequest.Id req)).
      destruct (store.Get (postgres.PostgresStore db) _ (orders.db w))
        as [[order err] s] eqn:Hget.
      rewrite (getOrder_run _ w req order err s Hid Hget).
      destruct err as [e |]; [| destruct order]; simpl; try discriminate.
      now elim N.
  - destruct (String.eqb_spec (orderv1.CheckOrderOwnerRequest.OrderId req) "")
      as [Hid | Hid].
    { unfold checkOrderOwnerHandler_Handle, checkOrderOwnerHandler_validate.
      rewrite Hid. discriminate. }
    destruct (String.eqb_spec (orderv1.CheckOrderOwnerRequest.UserId req) "")
      as [Hu | Hu].
    { unfold checkOrderOwnerHandler_Handle, checkOrderOwnerHandler_validate.
      rewrite Hu. destruct (String.eqb _ ""); discriminate. }
    specialize (N (orderv1.CheckOrderOwnerRequest.OrderId req)).
    destruct (store.Get (postgres.PostgresStore db) _ (orders.db w))
      as [[order err] s] eqn:Hget.
    rewrite (checkOrderOwner_run _ w req order err s Hid Hu Hget).
    destruct err as [e |]; [| destruct order as [o |]]; simpl; try discriminate.
    + destruct (String.eqb (entity.UserID o) _); discriminate.
    + now elim N.
Qed.

(** GetOrder over a PostgresStore, for a non-empty id: when the database
    reports sql.ErrNoRows, also inside a wrapping error, the answer is NotFound
    carrying the sentinel ErrOrderNotFound and not the error of the
    database; any other error of the database, one that does not contain
    the store's sentinel, is answered with the internal error carrying it;
    a row read without error is answered in wire form. *)
Theorem postgres_getOrder_outcomes {Conn} (db : sqlx.DB Conn) (w : World Conn)
    (req : orderv1.GetOrderRequest.t) row err c' :
  orderv1.GetOrderRequest.Id req <> "" ->
  sqlx.GetContext db postgres.getQuery (orderv1.GetOrderRequest.Id req)
    postgres.zeroOrder (orders.db w) = ((row, err), c') ->
  let run := getOrderHandler_Handle (postgres.PostgresStore db) req w in
  snd run = logged w (CallGet (orderv1.GetOrderRequest.Id req)) c'
  /\ (forall e, err = Some e -> errors.Is e sql.ErrNoRows = true ->
        fst run = Value (Fail (NewError CodeNotFound (Some (store.ErrOrderNotFound : error)))))
  /\ (forall e, err = Some e -> errors.Is e sql.ErrNoRows = false ->
        errors.Is e store.ErrOrderNotFound = false ->
        fst run = Value (Fail (NewError CodeInternal (Some e))))
  /\ (forall msg, err = Some (errors.New msg) ->
        fst run = Value (Fail (NewError CodeInternal (Some (errors.New msg)))))
  /\ (err = None ->
      fst run = Value (Resp {| orderv1.GetOrderResponse.Order := toProto row |})).
Proof.
  intros Hid Hdb run.
  pose proof (postgres_Get_cases db _ _ row err c' Hdb) as G.
  subst run.
  destruct err as [e |]; [destruct (errors.Is e sql.ErrNoRows) eqn:Hn |].
  - rewrite (getOrder_run _ w req _ _ c' Hid G). simpl.
    split; [reflexivity |]. split; [reflexivity |].
    split; [intros e0 H H0; injection H as <-; congruence |].
    split; [| discriminate].
    intros msg H. injection H as ->. discriminate Hn.
  - rewrite (getOrder_run _ w req _ _ c' Hid G). simpl.
    split; [reflexivity |].
    split; [intros e0 H H0; injection H as <-; congruence |].
    split; [intros e0 H _ H1; injection H as <-; now rewrite H1 |].
    split; [| discriminate].
    intros msg H. now injection H as ->.
  - rewrite (getOrder_run _ w req _ _ c' Hid G). simpl.
    split; [reflexivity |]. split; [discriminate |]. split; [discriminate |].
    split; [discriminate | reflexivity].
Qed.

Lemma postgres_getOrder_outcomes_witness :
  let req := orderv1.GetOrderRequest.mk "order-404" in
  let w := dbsamples.world (Some samples.order1) in
  let e : error := sql.ErrNoRows in
  orderv1.GetOrderRequest.Id req <> ""
  /\ sqlx.GetContext dbsamples.oneRow postgres.getQuery "order-404"
       postgres.zeroOrder (orders.db w)
     = ((postgres.zeroOrder, Some e), Some samples.order1)
  /\ errors.Is e sql.ErrNoRows = true
  /\ fst (getOrderHandler_Handle (postgres.PostgresStore dbsamples.oneRow) req w)
     = Value (Fail (NewError CodeNotFound (Some (store.ErrOrderNotFound : error)))).
Proof.
  split; [discriminate |]. split; [reflexivity |]. split; [reflexivity |].
  destruct (postgres_getOrder_outcomes dbsamples.oneRow
              (dbsamples.world (Some samples.order1))
              (orderv1.GetOrderRequest.mk "order-404")
              postgres.zeroOrder (Some (sql.ErrNoRows : error)) (Some samples.order1)
              ltac:(discriminate) eq_refl) as [_ [H _]].
  exact (H (sql.ErrNoRows : error) eq_refl eq_refl).
Defined.

(** PostgresStore.List returns the orders the database selected when the
    database reports no error, and the nil slice with the error otherwise,
    whatever the database left in the destination; the List handler then
    answers with the internal error carrying the error of the database. *)
Theorem postgres_List_outcomes {Conn} (db : sqlx.DB Conn) (w : World Conn)
    (req : orderv1.ListOrdersRequest.t) rows err c' :
  sqlx.SelectContext db postgres.listQuery [] (orders.db w) = ((rows, err), c') ->
  (forall e, err = Some e ->
     store.List (postgres.PostgresStore db) (orders.db w) = (([], Some e), c')
     /\ fst (listOrdersHandler_Handle (postgres.PostgresStore db) req w)
        = Value (Fail (NewError CodeInternal (Some e))))
  /\ (err = None ->
      store.List (postgres.PostgresStore db) (orders.db w) = ((rows, None), c')
      /\ forall os, rows = map Some os ->
           fst (listOrdersHandler_Handle (postgres.PostgresStore db) req w)
           = Value (Resp {| orderv1.ListOrdersResponse.Orders := map toProto os |})).
Proof.
  intros Hdb.
  assert (L : store.List (postgres.PostgresStore db) (orders.db w)
              = match err with
                | Some e => (([], Some e), c')
                | None => ((rows, None), c')
                end).
  { simpl. unfold postgres.List. now rewrite Hdb. }
  split.
  - intros e ->. split; [exact L |].
    now rewrite (listOrders_run _ w req _ _ c' L).
  - intros ->. split; [exact L |]. intros os ->.
    rewrite (listOrders_run _ w req _ _ c' L). simpl.
    now rewrite convertAll_map.
Qed.

Lemma postgres_List_outcomes_witness :
  let w := dbsamples.world (Some samples.order1) in
  sqlx.SelectContext dbsamples.oneRow postgres.listQuery [] (orders.db w)
  = (([Some samples.order1], None), Some samples.order1)
  /\ fst (listOrdersHandler_Handle (postgres.PostgresStore dbsamples.oneRow)
            orderv1.ListOrdersRequest.mk w)
     = Value (Resp {| orderv1.ListOrdersResponse.Orders := [toProto samples.order1] |}).
Proof.
  split; [reflexivity |].
  destruct (postgres_List_outcomes dbsamples.oneRow
              (dbsamples.world (Some samples.order1)) orderv1.ListOrdersRequest.mk
              [Some samples.order1] None (Some samples.order1) eq_refl) as [_ H].
  destruct (H eq_refl) as [_ H'].
  exact (H' [samples.order1] eq_refl).
Defined.

(** NewPostgresStore opens the connection with the postgres driver, pings
    it and creates the schema, in this order. It returns the store exactly
    when the three steps succeed; otherwise it returns the error of the
    first step that failed and leaves the connection as that step left it:
    no later step is run and the connection is not closed. *)
Theorem NewPostgresStore_steps {Conn} (db : sqlx.DB Conn) (connStr : string)
    (c : Conn) :
  let opened := sqlx.Open db "postgres" connStr c in
  let pinged := sqlx.Ping db (snd opened) in
  let schema := sqlx.Exec db postgres.schemaQuery (snd pinged) in
  let res := postgres.NewPostgresStore db connStr c in
  (forall e, fst opened = Some e -> res = (Fail e, snd opened))
  /\ (forall e, fst opened = None -> fst pinged = Some e ->
        res = (Fail e, snd pinged))
  /\ (forall e, fst opened = None -> fst pinged = None -> fst schema = Some e ->
        res = (Fail e, snd schema))
  /\ (fst opened = None -> fst pinged = None -> fst schema = None ->
      res = (Resp (postgres.PostgresStore db), snd schema))
  /\ ((exists s, fst res = Resp s)
      <-> fst opened = None /\ fst pinged = None /\ fst schema = None).
Proof.
  intros opened pinged schema res. subst opened pinged schema res.
  unfold postgres.NewPostgresStore, postgres.createSchema.
  destruct (sqlx.Open db "postgres" connStr c) as [e1 c1]. simpl.
  destruct e1 as [e1 |].
  { do 4 (split; [intros; congruence |]).
    split; [intros [s H]; discriminate H | intros [H _]; discriminate H]. }
  destruct (sqlx.Ping db c1) as [e2 c2]. simpl.
  destruct e2 as [e2 |].
  { do 4 (split; [intros; congruence |]).
    split; [intros [s H]; discriminate H | intros [_ [H _]]; discriminate H]. }
  destruct (sqlx.Exec db postgres.schemaQuery c2) as [e3 c3]. simpl.
  destruct e3 as [e3 |].
  - do 4 (split; [intros; congruence |]).
    split; [intros [s H]; discriminate H | intros [_ [_ H]]; discriminate H].
  - do 4 (split; [intros; congruence |]).
    split; [auto | intros _; eexists; reflexivity].
Qed.

Lemma NewPostgresStore_steps_witness :
  let e := errors.New "connection refused" in
  fst (sqlx.Open dbsamples.unreachable "postgres" "postgres://localhost/orders" 0%nat)
    = None
  /\ fst (sqlx.Ping dbsamples.unreachable 1%nat) = Some e
  /\ postgres.NewPostgresStore dbsamples.unreachable "postgres://localhost/orders" 0%nat
     = (Fail e, 2%nat).
Proof.
  split; [reflexivity |]. split; [reflexivity |].
  destruct (NewPostgresStore_steps dbsamples.unreachable
              "postgres://localhost/orders" 0%nat) as [_ [H _]].
  exact (H (errors.New "connection refused") eq_refl eq_refl).
Defined.

(** * MockOrderStore *)

(** Over a mock store with no function set, every valid CreateOrder
    succeeds, ListOrders answers with the empty sequence, and no handler
    fails with an internal or not-found error. *)
Theorem emptyMock_handlers (w : World unit) :
  (forall req,
     createOrderHandler_validate req = None ->
     fst (createOrderHandler_Handle (store.Mock store.emptyMock) req w)
     = Value (Resp {| orderv1.CreateOrderResponse.Order :=
                        toProto (newOrder req (entropy w (drawn w))
                                   (clock w (ticks w))) |}))
  /\ (forall req,
        fst (listOrdersHandler_Handle (store.Mock store.emptyMock) req w)
        = Value (Resp {| orderv1.ListOrdersResponse.Orders := [] |}))
  /\ (forall req e,
        fst (getOrderHandler_Handle (store.Mock store.emptyMock) req w)
          = Value (Fail e) -> code e = CodeInvalidArgument)
  /\ (forall req e,
        fst (checkOrderOwnerHandler_Handle (store.Mock store.emptyMock) req w)
          = Value (Fail e) -> code e = CodeInvalidArgument).
Proof.
  split; [| split; [| split]].
  - intros req Hv.
    destruct (createOrder_run (store.Mock store.emptyMock) w req
                (newOrder req (entropy w (drawn w)) (clock w (ticks w))) None tt Hv)
      as [w' [E _]].
    + simpl. now destruct (db w).
    + now rewrite E.
  - intros req. reflexivity.
  - intros req e.
    destruct (String.eqb_spec (orderv1.GetOrderRequest.Id req) "") as [Hid | Hid].
    + unfold getOrderHandler_Handle, getOrderHandler_validate. rewrite Hid. simpl.
      intros H. now injection H as <-.
    + rewrite (getOrder_run (store.Mock store.emptyMock) w req None None (db w)
                 Hid eq_refl).
      discriminate.
  - intros req e.
    destruct (String.eqb_spec (orderv1.CheckOrderOwnerRequest.OrderId req) "")
      as [Hid | Hid].
    { unfold checkOrderOwnerHandler_Handle, checkOrderOwnerHandler_validate.
      rewrite Hid. simpl. intros H. now injection H as <-. }
    destruct (String.eqb_spec (orderv1.CheckOrderOwnerRequest.UserId req) "")
      as [Hu | Hu].
    { unfold checkOrderOwnerHandler_Handle, checkOrderOwnerHandler_validate.
      rewrite Hu. destruct (String.eqb _ ""); simpl;
        intros H; now injection H as <-. }
    rewrite (checkOrderOwner_run (store.Mock store.emptyMock) w req None None (db w)
               Hid Hu eq_refl).
    discriminate.
Qed.

Lemma emptyMock_handlers_witness :
  let req := orderv1.CreateOrderRequest.mk "user-123" "Test Item" samples.amount_99_99 in
  createOrderHandler_validate req = None
  /\ fst (createOrderHandler_Handle (store.Mock store.emptyMock) req samples.world)
     = Value (Resp {| orderv1.CreateOrderResponse.Order :=
                        toProto (newOrder req (samples.uuids 0) (samples.wallclock 0)) |}).
Proof.
  split; [reflexivity |].
  exact (proj1 (emptyMock_handlers samples.world)
           (orderv1.CreateOrderRequest.mk "user-123" "Test Item" samples.amount_99_99)
           eq_refl).
Defined.
